(** * Machine Task Protocol (MTP): the signing and execution core

    A shallow embedding of

    - [IdentityManager] (identity/identity-manager.js): the constructor,
      [getIdentity], [stableStringify], [sign], [verify];
    - [CapabilityManager] (capability/capability-manager.js):
      [registerCapability], [getCapabilities], [validateCapability];
    - [Executor] (execution/executor.js): the constructor, [addCapability],
      [executeTask], [_createSignedResult], [getPublicInfo];
    - [Requester] (client/requester.js): [createTask], [verifyResult].

    JavaScript values are an inductive type, objects are property lists in
    own-property order, exceptions are an [outcome] monad, [Date.now()] is an
    explicit clock reading, the handler calls of [executeTask] are returned
    as a trace, and Node's [crypto] module is an interface ([CryptoBackend])
    the development is parametric in. What [generateKeyPairSync] and
    [uuidv4] draw is an argument of the function that calls them; the
    console messages are not modelled. *)

From Stdlib Require Import ZArith NArith String Ascii List Bool Lia.
From Stdlib Require Import Permutation Sorting.Sorted.
From stdpp Require Import base option list sorting strings pretty gmap.

Local Open Scope string_scope.
Local Open Scope Z_scope.
Local Open Scope list_scope.

(** ** JavaScript values *)

(** Numbers. [Int z] is the double whose value is the integer [z]: every
    integer below 2^53 in magnitude is one, and [Number::toString] prints
    the decimal digits of an integer-valued double below 10^21, which is the
    range [Int] is meant for (clock readings are far inside it). Every other
    finite double, a fraction or a larger number, is [Decimal text] for the
    text [Number::toString] prints for it ([0.5], [1e+21]); the model does
    no arithmetic on those. [NaN] and the two infinities complete the type;
    negative zero is not told apart from zero. *)
Inductive number : Type :=
| Int (z : Z)
| Decimal (text : string)
| NaN
| Infinity (negative : bool).

(** The values of the model are plain data: [undefined], [null], booleans,
    numbers, strings, functions, and arrays and plain objects of such values
    at any finite depth. Strings are sequences of code units below 256
    (Latin-1). A function value is opaque except for its source text, which
    [ToString] returns. An object is the list of its own enumerable
    properties (data properties with string keys, no [toJSON]). BigInt and
    symbol values, objects with accessors or a prototype of their own, and
    cyclic structures are outside the model: on a BigInt [JSON.stringify]
    throws and on a cycle [stableStringify] does not return, so what is
    proved for every [value] is proved for plain data and no further. *)
#[warnings="-register-all"]
Inductive value : Type :=
| JUndefined
| JNull
| JBool (b : bool)
| JNum (n : number)
| JStr (s : string)
| JFun (source : string)
| JArr (items : list value)
| JObj (props : list (string * value)).

(** Induction on values, with the hypothesis for every element of an array
    and every property value of an object. *)
Definition value_ind' (P : value -> Prop)
    (Hundefined : P JUndefined) (Hnull : P JNull)
    (Hbool : forall b, P (JBool b)) (Hnum : forall n, P (JNum n))
    (Hstr : forall s, P (JStr s)) (Hfun : forall source, P (JFun source))
    (Harr : forall items, Forall P items -> P (JArr items))
    (Hobj : forall props, Forall (fun p => P (snd p)) props -> P (JObj props))
    : forall v, P v :=
  fix go (v : value) : P v :=
    match v with
    | JUndefined => Hundefined
    | JNull => Hnull
    | JBool b => Hbool b
    | JNum n => Hnum n
    | JStr s => Hstr s
    | JFun source => Hfun source
    | JArr items =>
        Harr items
          ((fix go_items (l : list value) : Forall P l :=
              match l with
              | [] => List.Forall_nil P
              | item :: rest => List.Forall_cons P item rest (go item) (go_items rest)
              end) items)
    | JObj props =>
        Hobj props
          ((fix go_props (l : list (string * value)) : Forall (fun p => P (snd p)) l :=
              match l with
              | [] => List.Forall_nil (fun p => P (snd p))
              | (k, v) :: rest =>
                  List.Forall_cons (fun p => P (snd p)) (k, v) rest (go v) (go_props rest)
              end) props)
    end.

Definition typeof (v : value) : string :=
  match v with
  | JUndefined => "undefined"
  | JNull => "object"
  | JBool _ => "boolean"
  | JNum _ => "number"
  | JStr _ => "string"
  | JFun _ => "function"
  | JArr _ | JObj _ => "object"
  end.

Definition is_undefined (v : value) : bool :=
  match v with JUndefined => true | _ => false end.

Definition is_function (v : value) : bool :=
  String.eqb (typeof v) "function".

(** [Object.keys(obj)]: the own property names, in property order. *)
Definition Object_keys (props : list (string * value)) : list string :=
  map fst props.

(** [obj[key]]: the value of the property, [undefined] when there is none. *)
Fixpoint get (props : list (string * value)) (key : string) : value :=
  match props with
  | [] => JUndefined
  | (k, v) :: rest => if String.eqb k key then v else get rest key
  end.

(** A property list is a JavaScript object when no key occurs twice. *)
Definition well_formed_object (props : list (string * value)) : Prop :=
  NoDup (Object_keys props).

(** Two values are the same logical value when they differ only in the
    order the properties of their objects, at any depth, were created in. *)
#[warnings="-register-all"]
Inductive same_value : value -> value -> Prop :=
| same_refl (v : value) : same_value v v
| same_array (items1 items2 : list value) :
    Forall2 same_value items1 items2 ->
    same_value (JArr items1) (JArr items2)
| same_object (props1 reordered props2 : list (string * value)) :
    well_formed_object props1 ->
    props1 ≡ₚ reordered ->
    Forall2 (fun p q => fst p = fst q /\ same_value (snd p) (snd q)) reordered props2 ->
    same_value (JObj props1) (JObj props2).

(** ** Exceptions *)

Inductive outcome (A : Type) : Type :=
| Returned (a : A)
| Thrown (err : value).
Arguments Returned {A} a.
Arguments Thrown {A} err.

Global Instance outcome_ret : MRet outcome := fun _ a => Returned a.
Global Instance outcome_bind : MBind outcome := fun _ _ f m =>
  match m with
  | Returned a => f a
  | Thrown err => Thrown err
  end.

(** [new Error(message)], and a [TypeError] of the engine: an error object
    is modelled by the one property the source reads from it. *)
Definition Error (message : string) : value :=
  JObj [("message", JStr message)].

Definition TypeError (message : string) : value :=
  JObj [("message", JStr ("TypeError: " +:+ message))].

(** ** Built-ins used by the source *)

Definition hex_digit (n : N) : ascii :=
  ascii_of_N (if (n <? 10)%N then 48 + n else 87 + n)%N.

Definition double_quote : ascii := ascii_of_N 34.

(** One code unit inside [QuoteJSONString]. *)
Definition quote_code_unit (c : ascii) : string :=
  let n := N_of_ascii c in
  if (n =? 8)%N then "\b"
  else if (n =? 9)%N then "\t"
  else if (n =? 10)%N then "\n"
  else if (n =? 12)%N then "\f"
  else if (n =? 13)%N then "\r"
  else if (n =? 34)%N then String "\" (String c "")
  else if (n =? 92)%N then "\\"
  else if (n <? 32)%N then
    "\u00" +:+ String (hex_digit (n / 16)) (String (hex_digit (n mod 16)) "")
  else String c "".

Fixpoint quote_code_units (s : string) : string :=
  match s with
  | EmptyString => ""
  | String c rest => quote_code_unit c +:+ quote_code_units rest
  end.

(** [JSON.stringify] of a string. *)
Definition QuoteJSONString (s : string) : string :=
  String double_quote (quote_code_units s) +:+ String double_quote "".

(** [Number::toString]. *)
Definition Number_toString (n : number) : string :=
  match n with
  | Int z => pretty z
  | Decimal text => text
  | NaN => "NaN"
  | Infinity false => "Infinity"
  | Infinity true => "-Infinity"
  end.

(** [JSON.stringify] of a number: non-finite numbers print as [null]. *)
Definition JSON_number (n : number) : string :=
  match n with
  | Int z => pretty z
  | Decimal text => text
  | NaN | Infinity _ => "null"
  end.

(** [Array.prototype.join] over strings where [undefined] is an element:
    [undefined] is joined as the empty string. *)
Definition Array_join (sep : string) (l : list (option string)) : string :=
  String.concat sep (map (default "") l).

(** A substitution [${x}] in a template literal, for [x] a string or
    [undefined]. *)
Definition template (x : option string) : string :=
  default "undefined" x.

(** [JSON.stringify(v)]; [None] is the [undefined] it returns for [undefined]
    and for functions. Inside arrays those print as [null], inside objects
    their properties are skipped. [stableStringify] calls it on primitives
    only; the two last cases are there for reference (no [toJSON] methods).
    It writes the properties in the order of the list, which is the order
    of the object when no key is an array index; with such keys JavaScript
    orders the properties itself, and the list has to be in that order. *)
Fixpoint JSON_stringify (v : value) : option string :=
  match v with
  | JUndefined | JFun _ => None
  | JNull => Some "null"
  | JBool true => Some "true"
  | JBool false => Some "false"
  | JNum n => Some (JSON_number n)
  | JStr s => Some (QuoteJSONString s)
  | JArr items =>
      Some ("[" +:+ String.concat "," (map (fun item => default "null" (JSON_stringify item)) items) +:+ "]")
  | JObj props =>
      let fix members (ps : list (string * value)) : list string :=
        match ps with
        | [] => []
        | (k, v) :: rest =>
            match JSON_stringify v with
            | Some text => (QuoteJSONString k +:+ ":" +:+ text) :: members rest
            | None => members rest
            end
        end in
      Some ("{" +:+ String.concat "," (members props) +:+ "}")
  end.

(** [ToString(v)], as template literals apply it. An array prints through
    [join]. An object prints as [[object Object]] through the inherited
    [toString], unless it has an own property of that name: an own [toString]
    that is not callable makes the conversion throw a [TypeError] (the
    inherited [valueOf] returns the object, which is no primitive). An own
    [toString] that is a function would run that function; function values
    are opaque here, such objects cannot come out of [JSON.parse], and the
    model takes the conversion to throw for them as well. *)
Fixpoint ToString (v : value) : outcome string :=
  match v with
  | JUndefined => Returned "undefined"
  | JNull => Returned "null"
  | JBool true => Returned "true"
  | JBool false => Returned "false"
  | JNum n => Returned (Number_toString n)
  | JStr s => Returned s
  | JFun source => Returned source
  | JArr items =>
      let fix elements (l : list value) : outcome (list string) :=
        match l with
        | [] => Returned []
        | item :: rest =>
            text ← match item with
                   | JUndefined | JNull => Returned ""
                   | _ => ToString item
                   end;
            texts ← elements rest;
            mret (text :: texts)
        end in
      texts ← elements items;
      mret (String.concat "," texts)
  | JObj props =>
      if bool_decide ("toString" ∈ Object_keys props)
      then Thrown (TypeError "Cannot convert object to primitive value")
      else Returned "[object Object]"
  end.

(** [keys.sort()]: the default comparison of [Array.prototype.sort] on
    strings is code unit order, which is [String.le]. *)
Definition sort (keys : list string) : list string :=
  merge_sort String.le keys.

(** [s.toLowerCase()] on Latin-1 code units. *)
Definition toLowerCase_code_unit (c : ascii) : ascii :=
  let n := N_of_ascii c in
  if ((65 <=? n) && (n <=? 90))%N then ascii_of_N (n + 32)
  else if ((192 <=? n) && (n <=? 222) && negb (n =? 215))%N then ascii_of_N (n + 32)
  else c.

Fixpoint toLowerCase (s : string) : string :=
  match s with
  | EmptyString => ""
  | String c rest => String (toLowerCase_code_unit c) (toLowerCase rest)
  end.

(** The class [\s] of regular expressions, on Latin-1 code units. *)
Definition is_white_space (c : ascii) : bool :=
  let n := N_of_ascii c in
  ((9 <=? n) && (n <=? 13) || (n =? 32) || (n =? 160))%N.

(** [s.replace(/\s+/g, with_)]: every maximal run of white space becomes one
    copy of [with_]; [in_run] tells that the previous code unit was white
    space. *)
Fixpoint replace_white_space_runs (with_ : string) (in_run : bool) (s : string) : string :=
  match s with
  | EmptyString => ""
  | String c rest =>
      if is_white_space c then
        if in_run then replace_white_space_runs with_ true rest
        else with_ +:+ replace_white_space_runs with_ true rest
      else String c (replace_white_space_runs with_ false rest)
  end.

(** A property read [v.name] on a value of unknown type, for the names the
    source reads that way (the fields of a task, [message]): no prototype
    defines them, so only a plain object can hold one, and reading from
    [undefined] or [null] throws. *)
Definition property (v : value) (name : string) : outcome value :=
  match v with
  | JUndefined | JNull => Thrown (TypeError ("Cannot read properties: " +:+ name))
  | JObj props => Returned (get props name)
  | _ => Returned JUndefined
  end.

(** The same read where it cannot throw: [undefined] for what [property]
    throws on. *)
Definition get_field (v : value) (name : string) : value :=
  match property v name with
  | Returned field => field
  | Thrown _ => JUndefined
  end.

(** A parameter with a default value: [undefined] selects the default. *)
Definition default_parameter (dflt v : value) : value :=
  if is_undefined v then dflt else v.

(** [s === v] for a string [s]. *)
Definition strict_equal_string (s : string) (v : value) : bool :=
  match v with
  | JStr s' => String.eqb s s'
  | _ => false
  end.

(** ** Node's crypto module

    [crypto_sign privateKey payload] is
    [createSign('SHA256').update(payload).sign(privateKey, 'hex')] and
    [crypto_verify publicKey payload signature] is
    [createVerify('SHA256').update(payload).verify(publicKey, signature, 'hex')],
    for a string [payload]; either may throw (a key that does not parse). *)
Class CryptoBackend : Type := {
  crypto_sign : value -> string -> outcome string;
  crypto_verify : value -> string -> value -> outcome bool
}.

(** [update(data)] accepts a string (or a buffer, which the source never
    passes) and throws [ERR_INVALID_ARG_TYPE] on anything else, [undefined]
    included. *)
Definition update (payload : option string) : outcome string :=
  match payload with
  | Some text => Returned text
  | None => Thrown (TypeError "ERR_INVALID_ARG_TYPE")
  end.

(** ** IdentityManager *)

Module IdentityManager.

Record t : Type := {
  name : string;
  id : string;
  privateKey : value;
  publicKey : value
}.

(** [getIdentity()]. *)
Definition getIdentity (this : t) : value :=
  JObj [("id", JStr (id this)); ("publicKey", publicKey this)].

(** [part ps key] is the body of the [forEach] callback at [key]: the walk
    down the property list is the read [obj[key]] (see
    [stableStringify_object] for the equation with [get]), and what it
    returns is what the callback pushes on [parts]. *)
Fixpoint stableStringify (obj : value) : option string :=
  match obj with
  | JArr items =>
      Some ("[" +:+ Array_join "," (map (fun item => stableStringify item) items) +:+ "]")
  | JObj props =>
      let keys := sort (Object_keys props) in
      let fix part (ps : list (string * value)) (key : string) : list string :=
        match ps with
        | [] => []
        | (k, value) :: rest =>
            if String.eqb k key then
              if negb (is_undefined value) && negb (is_function value) then
                let keyStr := JSON_stringify (JStr key) in
                let valStr := stableStringify value in
                [template keyStr +:+ ":" +:+ template valStr]
              else []
            else part rest key
        end in
      Some ("{" +:+ String.concat "," (flat_map (part props) keys) +:+ "}")
  | _ => JSON_stringify obj
  end.

(** The argument [existingKeys] of the constructor, when it is given: an
    object with the two keys and, optionally, an id, which is a string. *)
Record ExistingKeys : Type := {
  keys_id : option string;
  keys_privateKey : value;
  keys_publicKey : value
}.

(** [`did:mtp:${name}:${Date.now()}`]. *)
Definition did (name : string) (now : Z) : string :=
  "did:mtp:" +:+ name +:+ ":" +:+ Number_toString (Int now).

(** [new IdentityManager(name = 'anonymous', existingKeys = null)] at the
    clock reading [now]; [generated] is the pair (private key, public key)
    that [generateKeyPairSync] returns when it is called. In
    [existingKeys.id || ...] an id that is absent or the empty string gives
    way to the generated one. *)
Definition new (name : option string) (existingKeys : option ExistingKeys) (now : Z)
    (generated : value * value) : t :=
  let name := default "anonymous" name in
  match existingKeys with
  | Some keys =>
      {| name := name;
         id := match keys_id keys with
               | Some given => if String.eqb given "" then did name now else given
               | None => did name now
               end;
         privateKey := keys_privateKey keys;
         publicKey := keys_publicKey keys |}
  | None =>
      {| name := name;
         id := did name now;
         privateKey := fst generated;
         publicKey := snd generated |}
  end.

Section Signing.
Context `{CryptoBackend}.

Definition sign (this : t) (data : value) : outcome string :=
  let payload := stableStringify data in
  payload' ← update payload;
  crypto_sign (privateKey this) payload'.

(** The [try] block holds the call of [verify.verify] only. *)
Definition verify (data signature publicKey : value) : outcome bool :=
  let payload := stableStringify data in
  payload' ← update payload;
  match crypto_verify publicKey payload' signature with
  | Returned b => Returned b
  | Thrown err => Returned false
  end.
End Signing.

End IdentityManager.

(** ** CapabilityManager *)

(** A schema of the validation library: [parse] returns the parsed value or
    throws. *)
Record Schema : Type := { parse : value -> outcome value }.

Module CapabilityManager.

Record Capability : Type := {
  id : string;
  name : string;
  _inputSchemaZod : Schema;
  _outputSchemaZod : Schema;
  description : string;
  constraints : value
}.

Record t : Type := {
  identity : value;
  capabilities : list Capability
}.

(** [new CapabilityManager(identity)]. *)
Definition new (identity : value) : t :=
  {| identity := identity; capabilities := [] |}.

(** [registerCapability(name, inputSchema, outputSchema, constraints = {})]
    at the clock reading [now]; the registry after the call and the
    capability returned. A call without the fourth argument passes
    [JUndefined]. The console message is not modelled. *)
Definition registerCapability (this : t) (now : Z) (name : string)
    (inputSchema outputSchema : Schema) (constraints : value) : t * Capability :=
  let constraints := default_parameter (JObj []) constraints in
  let capabilityId :=
    "cap_" +:+ replace_white_space_runs "_" false (toLowerCase name)
           +:+ "_" +:+ Number_toString (Int now) in
  let capability :=
    {| id := capabilityId;
       name := name;
       _inputSchemaZod := inputSchema;
       _outputSchemaZod := outputSchema;
       description := "Capability for " +:+ name;
       constraints := constraints |} in
  ({| identity := identity this;
      capabilities := capabilities this ++ [capability] |}, capability).

(** One entry of the catalogue: the capability without its two schema
    handles, in the order the rest properties keep, and the fixed note. *)
Definition public_capability (cap : Capability) : value :=
  JObj [("id", JStr (id cap));
        ("name", JStr (name cap));
        ("description", JStr (description cap));
        ("constraints", constraints cap);
        ("schemaDescription", JStr "Validators are internal to Executor instance")].

(** [getCapabilities()] at the clock reading [now]. The read
    [this.identity.id] throws when the manager was built without an
    identity. *)
Definition getCapabilities (this : t) (now : Z) : outcome value :=
  executorId ← property (identity this) "id";
  mret (JObj [("executorId", executorId);
              ("capabilities", JArr (map public_capability (capabilities this)));
              ("timestamp", JNum (Int now))]).

(** [this.capabilities.find(c => c.id === capabilityId)]. *)
Definition find_capability (this : t) (capabilityId : value) : option Capability :=
  List.find (fun c => strict_equal_string (id c) capabilityId) (capabilities this).

Definition validateCapability (this : t) (capabilityId input : value) : outcome value :=
  match find_capability this capabilityId with
  | None =>
      text ← ToString capabilityId;
      Thrown (Error ("Capability not found: " +:+ text))
  | Some cap => parse (_inputSchemaZod cap) input
  end.

End CapabilityManager.

(** ** Executor *)

(** A handler is an async function of the payload: it resolves to a value or
    rejects with one. Handlers that never settle are outside the model. *)
Definition handler : Type := value -> outcome value.

(** The observable effect of [executeTask]: the handler calls it makes, each
    with the id the handler is registered under and the argument passed. *)
Inductive call : Type :=
| Call (capabilityId : string) (argument : value).

(** The fields [executeTask] destructures from its argument. *)
Record Task : Type := {
  taskId : value;
  requesterId : value;
  capabilityId : value;
  payload : value;
  timestamp : value;
  signature : value;
  publicKey : value
}.

(** [const { taskId, ..., publicKey } = signedTask]. *)
Definition destructure (signedTask : value) : outcome Task :=
  taskId ← property signedTask "taskId";
  requesterId ← property signedTask "requesterId";
  capabilityId ← property signedTask "capabilityId";
  payload ← property signedTask "payload";
  timestamp ← property signedTask "timestamp";
  signature ← property signedTask "signature";
  publicKey ← property signedTask "publicKey";
  mret {| taskId := taskId; requesterId := requesterId;
          capabilityId := capabilityId; payload := payload;
          timestamp := timestamp; signature := signature;
          publicKey := publicKey |}.

(** [{ taskId, requesterId, capabilityId, payload, timestamp }]. *)
Definition dataToVerify (task : Task) : value :=
  JObj [("taskId", taskId task);
        ("requesterId", requesterId task);
        ("capabilityId", capabilityId task);
        ("payload", payload task);
        ("timestamp", timestamp task)].

Definition AUTH_FAILED : string := "Invalid Task Signature: Auth Failed".

Module Executor.

Record t : Type := {
  identity : IdentityManager.t;
  capabilityManager : CapabilityManager.t;
  handlers : gmap string handler
}.

(** [new Executor(name, options)], for the identity the constructor builds
    from [name] and [options.keys]. *)
Definition new (identity : IdentityManager.t) : t :=
  {| identity := identity;
     capabilityManager := CapabilityManager.new (IdentityManager.getIdentity identity);
     handlers := ∅ |}.

(** [addCapability(name, inputSchema, outputSchema, handler)] at the clock
    reading [now]. *)
Definition addCapability (this : t) (now : Z) (name : string)
    (inputSchema outputSchema : Schema) (h : handler)
    : t * CapabilityManager.Capability :=
  let '(capabilityManager', cap) :=
    CapabilityManager.registerCapability (capabilityManager this) now name
      inputSchema outputSchema JUndefined in
  ({| identity := identity this;
      capabilityManager := capabilityManager';
      handlers := <[CapabilityManager.id cap := h]> (handlers this) |}, cap).

(** [this.handlers.get(capabilityId)]: the keys of the map are strings. *)
Definition handlers_get (this : t) (capabilityId : value) : option (string * handler) :=
  match capabilityId with
  | JStr key => (fun h => (key, h)) <$> handlers this !! key
  | _ => None
  end.

(** [getPublicInfo()] at the clock reading [now]. *)
Definition getPublicInfo (this : t) (now : Z) : outcome value :=
  let identity := IdentityManager.getIdentity (identity this) in
  capabilities ← CapabilityManager.getCapabilities (capabilityManager this) now;
  mret (JObj [("identity", identity); ("capabilities", capabilities)]).

Section Pipeline.
Context `{CryptoBackend}.

(** [_createSignedResult(taskId, status, result = null, error = null)] at
    the clock reading [now]. *)
Definition _createSignedResult (this : t) (now : Z) (taskId : value)
    (status : string) (result error : value) : outcome value :=
  let result := default_parameter JNull result in
  let error := default_parameter JNull error in
  let resultObject :=
    [("taskId", taskId);
     ("executorId", JStr (IdentityManager.id (identity this)));
     ("status", JStr status);
     ("timestamp", JNum (Int now))] in
  let resultObject :=
    if String.eqb status "success"
    then resultObject ++ [("result", result)]
    else resultObject ++ [("error", error)] in
  signature ← IdentityManager.sign (identity this) (JObj resultObject);
  mret (JObj (resultObject ++ [("signature", JStr signature)])).

(** [executeTask(signedTask)]: what the call returns or throws, and the
    handler calls made on the way; [now] is the clock reading when the
    result is created. The [try] block of step 3 holds the call of
    [validateCapability] only; the one of step 4 holds the handler call and
    the signing of the success result, so that [catch (err)] answers a throw
    of either. What the two [catch] blocks do is outside every [try]. *)
Definition executeTask (this : t) (now : Z) (signedTask : value)
    : outcome value * list call :=
  match destructure signedTask with
  | Thrown err => (Thrown err, [])
  | Returned task =>
      match IdentityManager.verify (dataToVerify task) (signature task) (publicKey task) with
      | Thrown err => (Thrown err, [])
      | Returned false =>
          (_createSignedResult this now (taskId task) "failure" JNull (JStr AUTH_FAILED), [])
      | Returned true =>
          match handlers_get this (capabilityId task) with
          | None =>
              (text ← ToString (capabilityId task);
               _createSignedResult this now (taskId task) "failure" JNull
                 (JStr ("Capability '" +:+ text
                        +:+ "' not supported by this executor.")), [])
          | Some (key, handler) =>
              match CapabilityManager.validateCapability (capabilityManager this)
                      (capabilityId task) (payload task) with
              | Thrown e =>
                  (message ← property e "message";
                   text ← ToString message;
                   _createSignedResult this now (taskId task) "failure" JNull
                     (JStr ("Schema Validation Failed: " +:+ text)), [])
              | Returned _ =>
                  let attempt :=
                    resultData ← handler (payload task);
                    _createSignedResult this now (taskId task) "success"
                      resultData JUndefined in
                  (match attempt with
                   | Returned signedResult => Returned signedResult
                   | Thrown err =>
                       message ← property err "message";
                       _createSignedResult this now (taskId task) "failure" JNull message
                   end,
                   [Call key (payload task)])
              end
          end
      end
  end.
End Pipeline.

End Executor.

(** ** Requester *)

Module Requester.

Record t : Type := { identity : IdentityManager.t }.

Section Client.
Context `{CryptoBackend}.

(** [createTask(capabilityId, payload)], with the identifier [uuid] that
    [uuidv4()] draws and the clock reading [now]. *)
Definition createTask (this : t) (uuid : string) (now : Z)
    (capabilityId payload : value) : outcome value :=
  let taskData :=
    [("taskId", JStr uuid);
     ("requesterId", JStr (IdentityManager.id (identity this)));
     ("capabilityId", capabilityId);
     ("payload", payload);
     ("timestamp", JNum (Int now))] in
  signature ← IdentityManager.sign (identity this) (JObj taskData);
  mret (JObj (taskData ++ [("signature", JStr signature);
                           ("publicKey", IdentityManager.publicKey (identity this))])).

(** [const { signature, ...data } = signedResult]: the rest properties. *)
Definition without_signature (props : list (string * value)) : list (string * value) :=
  List.filter (fun p => negb (String.eqb (fst p) "signature")) props.

(** [verifyResult(signedResult, executorPublicKey)], for a result object
    with the properties [signedResult]. *)
Definition verifyResult (signedResult : list (string * value))
    (executorPublicKey : value) : outcome bool :=
  let signature := get signedResult "signature" in
  let data := without_signature signedResult in
  IdentityManager.verify (JObj data) signature executorPublicKey.
End Client.

End Requester.

(** ** The canonical form of an object, spelled with [get]

    [callback props key] is the body of the [forEach] callback of
    [stableStringify] with the property read written as [get], and
    [parts props] the array [parts] once the loop is over. *)
Definition callback (props : list (string * value)) (key : string) : list string :=
  let value := get props key in
  if negb (is_undefined value) && negb (is_function value) then
    let keyStr := JSON_stringify (JStr key) in
    let valStr := IdentityManager.stableStringify value in
    [template keyStr +:+ ":" +:+ template valStr]
  else [].

Definition parts (props : list (string * value)) : list string :=
  flat_map (callback props) (sort (Object_keys props)).


(** ** A backend, participants and tasks to run the model on

    An idealised signature scheme: the key pair of [who] is
    [{secret: who}] / [who], a signature is the signer's name and the signed
    text, and verification compares. It throws on keys and signatures of the
    wrong type, the way the real backend throws on what it cannot parse. *)
Definition example_sign (privateKey : value) (payload : string) : outcome string :=
  match privateKey with
  | JObj [("secret", JStr who)] => Returned (who +:+ " signed " +:+ payload)
  | _ => Thrown (Error "unsupported private key")
  end.

Definition example_verify (publicKey : value) (payload : string) (signature : value)
    : outcome bool :=
  match publicKey, signature with
  | JStr who, JStr s => Returned (String.eqb s (who +:+ " signed " +:+ payload))
  | _, _ => Thrown (Error "unsupported key or signature")
  end.

Definition example_backend : CryptoBackend :=
  {| crypto_sign := example_sign; crypto_verify := example_verify |}.

Definition example_identity (who : string) : IdentityManager.t :=
  {| IdentityManager.name := who;
     IdentityManager.id := "did:mtp:" +:+ who +:+ ":1";
     IdentityManager.privateKey := JObj [("secret", JStr who)];
     IdentityManager.publicKey := JStr who |}.

(** [NaN] is no number for the validation library: [z.number()] rejects
    it. *)
Definition is_NaN (n : number) : bool :=
  match n with NaN => true | _ => false end.

(** A schema in the manner of [z.object({ a: z.number(), b: z.number() })]
    of [examples/server.js]: it accepts an object whose fields [a] and [b]
    are numbers and returns it stripped of the fields it does not know.
    The validation library is not part of the sources: which numbers
    beside the finite ones it accepts depends on its version, and the
    wording of its messages is its own; the two messages here are fixed
    texts that stand for them. *)
Definition AddSchema : Schema :=
  {| parse := fun input =>
       match input with
       | JObj props =>
           match get props "a", get props "b" with
           | JNum a, JNum b =>
               if is_NaN a || is_NaN b then Thrown (Error "Expected number")
               else Returned (JObj [("a", JNum a); ("b", JNum b)])
           | _, _ => Thrown (Error "Expected number")
           end
       | _ => Thrown (Error "Expected object")
       end |}.

Definition MathResultSchema : Schema :=
  {| parse := fun input =>
       match input with
       | JObj props =>
           match get props "answer" with
           | JNum n =>
               if is_NaN n then Thrown (Error "Expected number")
               else Returned (JObj [("answer", JNum n)])
           | _ => Thrown (Error "Expected number")
           end
       | _ => Thrown (Error "Expected object")
       end |}.

(** A schema that accepts everything and returns it unchanged. *)
Definition AnySchema : Schema := {| parse := fun input => Returned input |}.

(** [async (payload) => ({ answer: payload.a + payload.b })] of
    [examples/server.js] on the payloads of the examples below: two integers
    whose sum is in the safe range, where the sum of the doubles is the sum
    of the integers, and payloads that are no object. On any other payload
    (a field that is no integer: [+] would add other doubles or concatenate
    strings) the definition answers [NaN] and does not follow the source;
    no statement below runs it there. *)
Definition add_handler : handler := fun payload =>
  match payload with
  | JObj props =>
      match get props "a", get props "b" with
      | JNum (Int a), JNum (Int b) => Returned (JObj [("answer", JNum (Int (a + b)))])
      | _, _ => Returned (JObj [("answer", JNum NaN)])
      end
  | JUndefined | JNull => Thrown (TypeError "Cannot read properties: a")
  | _ => Returned (JObj [("answer", JNum NaN)])
  end.

(** The executor of [examples/server.js], its capability registered at clock
    reading 1000. *)
Definition example_executor : Executor.t :=
  fst (Executor.addCapability (Executor.new (example_identity "AlphaNode"))
         1000 "MathAdd" AddSchema MathResultSchema add_handler).

(** An executor with one capability that takes any payload. *)
Definition echo_executor : Executor.t :=
  fst (Executor.addCapability (Executor.new (example_identity "AlphaNode"))
         1000 "Echo" AnySchema AnySchema (fun payload => Returned payload)).

(** The task object a requester called [who] creates. *)
Definition example_task (who uuid : string) (now : Z) (capabilityId payload : value)
    : list (string * value) :=
  match Requester.createTask (H := example_backend)
          {| Requester.identity := example_identity who |} uuid now capabilityId payload with
  | Returned (JObj props) => props
  | _ => []
  end.

(** [task[name] = v] on a task object that has the property. *)
Fixpoint set_property (props : list (string * value)) (name : string) (v : value)
    : list (string * value) :=
  match props with
  | [] => []
  | (k, old) :: rest =>
      if String.eqb k name then (k, v) :: rest else (k, old) :: set_property rest name v
  end.

(** ** Contracts of the backend and shapes of results *)

Section Contracts.
Context `{CryptoBackend}.

(** [publicKey] is the public key paired with [privateKey]: whatever
    the private key signs, the public key verifies. *)
Definition paired (privateKey publicKey : value) : Prop :=
  forall payload : string,
    exists s : string,
      crypto_sign privateKey payload = Returned s
      /\ crypto_verify publicKey payload (JStr s) = Returned true.

(** A signature made for one text verifies no other text. *)
Definition unforgeable (privateKey publicKey : value) : Prop :=
  forall (payload payload' s : string),
    crypto_sign privateKey payload = Returned s ->
    payload' <> payload ->
    crypto_verify publicKey payload' (JStr s) <> Returned true.

(** The backend accepts the private key of the identity. *)
Definition can_sign (this : IdentityManager.t) : Prop :=
  forall payload : string,
    exists s : string, crypto_sign (IdentityManager.privateKey this) payload = Returned s.

(** [verify(data, this.sign(data), this.publicKey)]. *)
Definition round_trip (this : IdentityManager.t) (data : value) : outcome bool :=
  s ← IdentityManager.sign this data;
  IdentityManager.verify data (JStr s) (IdentityManager.publicKey this).

(** [r] is a result object signed by [this] over all its other fields,
    with a status of the closed set and the field that goes with it. *)
Definition signed_result (this : Executor.t) (r : value) : Prop :=
  exists (props : list (string * value)) (s status : string),
    r = JObj props
    /\ get props "signature" = JStr s
    /\ IdentityManager.sign (Executor.identity this)
         (JObj (Requester.without_signature props)) = Returned s
    /\ get props "status" = JStr status
    /\ (status = "success" \/ status = "failure")
    /\ ("result" ∈ Object_keys props <-> status = "success")
    /\ ("error" ∈ Object_keys props <-> status = "failure").

(** [r] is a failure result of [this] with the diagnostic [message]. *)
Definition failure_result (this : Executor.t) (r : value) (message : string) : Prop :=
  exists props : list (string * value),
    r = JObj props
    /\ signed_result this r
    /\ get props "status" = JStr "failure"
    /\ get props "error" = JStr message.
End Contracts.

(** What a function throws is never [undefined] or [null]. *)
Definition throws_objects (f : value -> outcome value) : Prop :=
  forall input err : value, f input = Thrown err -> err <> JUndefined /\ err <> JNull.

(** What a function throws has a string for its [message], as every
    [Error] has. *)
Definition throws_errors (f : value -> outcome value) : Prop :=
  forall input err : value,
    f input = Thrown err -> exists m : string, property err "message" = Returned (JStr m).

(** The fields a task object destructures to, and the names of those that
    are signed. *)
Definition task_of (props : list (string * value)) : Task :=
  {| taskId := get props "taskId";
     requesterId := get props "requesterId";
     capabilityId := get props "capabilityId";
     payload := get props "payload";
     timestamp := get props "timestamp";
     signature := get props "signature";
     publicKey := get props "publicKey" |}.

Definition SIGNED_FIELDS : list string :=
  ["taskId"; "requesterId"; "capabilityId"; "payload"; "timestamp"].

(** A handler that rejects everything, to tell handlers apart. *)
Definition failing_handler : handler := fun _ => Thrown (Error "not implemented").

(** Two capabilities registered under the name [Add] at one clock reading:
    first with [AddSchema] and [add_handler], then with [AnySchema] and
    [failing_handler]. *)
Definition twice_registered : Executor.t :=
  let first := Executor.addCapability (Executor.new (example_identity "AlphaNode"))
                 1000 "Add" AddSchema MathResultSchema add_handler in
  fst (Executor.addCapability (fst first) 1000 "Add" AnySchema AnySchema failing_handler).

(** Tasks of the requester [ClientOne] for the examples: a sum with a field
    the schema does not know, a sum with a field missing, and for the echo
    capability an object with a field set to [undefined]. *)
Definition task_with_extra_field : list (string * value) :=
  example_task "ClientOne" "uuid-1" 1500 (JStr "cap_mathadd_1000")
    (JObj [("a", JNum (Int 50)); ("b", JNum (Int 75)); ("extra", JStr "x")]).

Definition task_with_missing_field : list (string * value) :=
  example_task "ClientOne" "uuid-2" 1500 (JStr "cap_mathadd_1000")
    (JObj [("a", JNum (Int 50))]).

Definition task_with_undefined_field : list (string * value) :=
  example_task "ClientOne" "uuid-3" 1500 (JStr "cap_echo_1000")
    (JObj [("amount", JNum (Int 5)); ("note", JUndefined)]).

(** ** Executors as the API builds them *)

(** The executors that [new Executor] and [addCapability] produce. *)
Inductive built : Executor.t -> Prop :=
| built_new (identity : IdentityManager.t) : built (Executor.new identity)
| built_addCapability (this : Executor.t) (now : Z) (name : string)
    (inputSchema outputSchema : Schema) (h : handler) :
    built this ->
    built (fst (Executor.addCapability this now name inputSchema outputSchema h)).

(** [new Executor(name, options)]: the identity comes from
    [new IdentityManager(name, options.keys)]. *)
Definition new_Executor (name : option string)
    (keys : option IdentityManager.ExistingKeys) (now : Z) (generated : value * value)
    : Executor.t :=
  Executor.new (IdentityManager.new name keys now generated).

(** The ids a discovery document lists:
    [publicInfo.capabilities.capabilities.map(c => c.id)]. *)
Definition listed_ids (catalogue : value) : list value :=
  match get_field catalogue "capabilities" with
  | JArr entries => map (fun entry => get_field entry "id") entries
  | _ => []
  end.

(** The part of a capability id that comes from the name. *)
Definition slug (name : string) : string :=
  replace_white_space_runs "_" false (toLowerCase name).

Fixpoint code_units (s : string) : list ascii :=
  match s with
  | EmptyString => []
  | String c rest => c :: code_units rest
  end.

(** The capital letters of Latin-1: the code units [toLowerCase] changes. *)
Definition is_capital (c : ascii) : bool :=
  let n := N_of_ascii c in
  ((65 <=? n) && (n <=? 90) || (192 <=? n) && (n <=? 222) && negb (n =? 215))%N.

(** [task = value] for a non-object [value] reads like the empty object:
    every field is [undefined]. *)
Definition is_nullish (v : value) : bool :=
  match v with JUndefined | JNull => true | _ => false end.

Definition is_object (v : value) : bool :=
  match v with JObj _ => true | _ => false end.

(** ** JSON data and the reading of canonical text

    The values for which the canonical form determines the value, and what
    is needed to read a canonical text back. *)

Definition is_digit (c : ascii) : bool :=
  let n := N_of_ascii c in ((48 <=? n) && (n <=? 57))%N.

Fixpoint digits (s : string) : bool :=
  match s with
  | EmptyString => true
  | String c rest => is_digit c && digits rest
  end.

(** The characters a number is written with in JSON text: digits, signs,
    the point and the exponent mark. *)
Definition is_number_char (c : ascii) : bool :=
  let n := N_of_ascii c in
  is_digit c || ((n =? 43) || (n =? 45) || (n =? 46) || (n =? 69) || (n =? 101))%N.

Fixpoint number_chars (s : string) : bool :=
  match s with
  | EmptyString => true
  | String c rest => is_number_char c && number_chars rest
  end.

(** The text of a finite number that is no integer of the range of [Int]:
    it starts with a digit or the minus sign, goes on in number characters
    and is not the decimal text of an integer. *)
Definition is_decimal_text (text : string) : bool :=
  match text with
  | EmptyString => false
  | String c rest =>
      (is_digit c || Ascii.eqb c "-") && number_chars rest && negb (digits rest)
  end.

(** JSON data: [null], booleans, finite numbers, strings, and arrays and
    objects of JSON data. *)
Fixpoint is_json (v : value) : bool :=
  match v with
  | JNull | JBool _ | JStr _ | JNum (Int _) => true
  | JNum (Decimal text) => is_decimal_text text
  | JArr items => forallb is_json items
  | JObj props =>
      bool_decide (well_formed_object props)
      && (fix values (ps : list (string * value)) : bool :=
            match ps with
            | [] => true
            | (_, v) :: rest => is_json v && values rest
            end) props
  | _ => false
  end.

(** The canonical form as a string, empty where there is none. *)
Definition canonical (v : value) : string :=
  default "" (IdentityManager.stableStringify v).

(** What may follow a value inside a canonical text: nothing, or a
    character no number is written with (a comma or a closing bracket). *)
Definition delimited (s : string) : bool :=
  match s with
  | EmptyString => true
  | String c _ => negb (is_number_char c)
  end.

(** The first character of a JSON text tells the type of the value: [n],
    [t], [f], a digit or the minus sign, the double quote, the opening
    bracket, the opening brace. *)
Definition kind_of_char (c : ascii) : N :=
  let n := N_of_ascii c in
  if (n =? 110)%N then 0
  else if (n =? 116)%N then 1
  else if (n =? 102)%N then 2
  else if is_digit c || (n =? 45)%N then 3
  else if (n =? 34)%N then 4
  else if (n =? 91)%N then 5
  else if (n =? 123)%N then 6
  else 7.

Definition kind (v : value) : N :=
  match v with
  | JNull => 0
  | JBool true => 1
  | JBool false => 2
  | JNum _ => 3
  | JStr _ => 4
  | JArr _ => 5
  | JObj _ => 6
  | _ => 7
  end.

Definition hex_value (c : ascii) : N :=
  let n := N_of_ascii c in if (n <? 58)%N then n - 48 else n - 87.

(** Reading back one code unit that [quote_code_unit] wrote: the code unit
    and the text after it; [None] at the closing quote. *)
Definition read_code_unit (s : string) : option (ascii * string) :=
  match s with
  | EmptyString => None
  | String c rest =>
      if Ascii.eqb c double_quote then None
      else if Ascii.eqb c "\" then
        match rest with
        | String e rest' =>
            if Ascii.eqb e "b" then Some (ascii_of_N 8, rest')
            else if Ascii.eqb e "t" then Some (ascii_of_N 9, rest')
            else if Ascii.eqb e "n" then Some (ascii_of_N 10, rest')
            else if Ascii.eqb e "f" then Some (ascii_of_N 12, rest')
            else if Ascii.eqb e "r" then Some (ascii_of_N 13, rest')
            else if Ascii.eqb e "u" then
              match rest' with
              | String _ (String _ (String high (String low rest''))) =>
                  Some (ascii_of_N (16 * hex_value high + hex_value low), rest'')
              | _ => None
              end
            else Some (e, rest')
        | EmptyString => None
        end
      else Some (c, rest)
  end.

(** [v1] can be read back: whatever JSON value has a canonical text that
    starts like the one of [v1], followed by a delimiter, is [v1] up to the
    order of properties, and the rests agree. *)
Definition readable (v1 : value) : Prop :=
  forall (v2 : value) (r1 r2 : string),
    is_json v2 = true -> delimited r1 = true -> delimited r2 = true ->
    canonical v1 +:+ r1 = canonical v2 +:+ r2 -> same_value v1 v2 /\ r1 = r2.

(** The part of a key whose value has a canonical form. *)
Definition member (props : list (string * value)) (key : string) : string :=
  QuoteJSONString key +:+ ":" +:+ canonical (get props key).

(** A property name written in digits only. JavaScript keeps the properties
    whose names are array indices in ascending numeric order before all
    others, whatever the order they were created in. *)
Definition is_integer_key (key : string) : bool :=
  negb (String.eqb key "") && digits key.

(** ** Values as JSON text has them *)

(** The properties [JSON.stringify] writes for an object: those whose value
    has a JSON text, in property order. *)
Definition JSON_members (props : list (string * value)) : list string :=
  flat_map (fun p => match JSON_stringify (snd p) with
                     | Some text => [QuoteJSONString (fst p) +:+ ":" +:+ text]
                     | None => []
                     end) props.

(** A value in which every object, at any depth, has its keys in sorted
    order, none of them written in digits only, and no array holds
    [undefined] or a function. Without keys in digits every order of the
    properties is one a JavaScript object can have; with them, the sorted
    order ([10] before [9]) need not be. *)
Fixpoint sorted_clean (v : value) : bool :=
  match v with
  | JArr items =>
      forallb (fun item => sorted_clean item
                           && negb (is_undefined item || is_function item)) items
  | JObj props =>
      bool_decide (well_formed_object props)
      && bool_decide (sort (Object_keys props) = Object_keys props)
      && forallb (fun key => negb (is_integer_key key)) (Object_keys props)
      && (fix values (ps : list (string * value)) : bool :=
            match ps with
            | [] => true
            | (_, v) :: rest => sorted_clean v && values rest
            end) props
  | _ => true
  end.

(** * Properties *)

(** ** Code unit order and [sort] *)

Lemma sort_sorted (keys : list string) : StronglySorted String.le (sort keys).
Proof. apply StronglySorted_merge_sort; apply _. Qed.

Lemma sort_Permutation (keys : list string) : sort keys ≡ₚ keys.
Proof. apply merge_sort_Permutation. Qed.

(** Sorting forgets the order the keys came in. *)
Lemma sort_order_independent (keys1 keys2 : list string) :
  keys1 ≡ₚ keys2 -> sort keys1 = sort keys2.
Proof.
  intros Hperm. apply (StronglySorted_unique String.le); auto using sort_sorted.
  by rewrite !sort_Permutation.
Qed.

Lemma StronglySorted_filter {A} (R : relation A) (P : A -> Prop)
    `{!forall x, Decision (P x)} (l : list A) :
  StronglySorted R l -> StronglySorted R (filter P l).
Proof.
  induction 1 as [|x l Hl IH Hx]; [constructor|].
  rewrite filter_cons. case_decide; [|done].
  constructor; [done|].
  apply Forall_forall. intros y [_ Hy]%list_elem_of_filter.
  rewrite Forall_forall in Hx. by apply Hx.
Qed.

(** Dropping a key before or after sorting is the same. *)
Lemma sort_without (k : string) (keys1 keys2 : list string) :
  k ∉ keys1 ++ keys2 ->
  filter (fun key => key <> k) (sort (keys1 ++ k :: keys2)) = sort (keys1 ++ keys2).
Proof.
  intros Hk. apply (StronglySorted_unique String.le).
  - apply StronglySorted_filter, sort_sorted.
  - apply sort_sorted.
  - rewrite !sort_Permutation, filter_app, filter_cons.
    case_decide; [done|].
    rewrite <- filter_app.
    assert (Hall : Forall (fun key => key <> k) (keys1 ++ keys2)).
    { apply Forall_forall. by intros key Hin ->. }
    clear Hk. induction (keys1 ++ keys2) as [|x l IH]; [done|].
    inversion Hall; subst. rewrite filter_cons. case_decide; [|done].
    by rewrite IH.
Qed.

(** ** Property reads *)

Lemma get_insert_ne (props1 props2 : list (string * value)) (k key : string) (v : value) :
  key <> k -> get (props1 ++ (k, v) :: props2) key = get (props1 ++ props2) key.
Proof.
  intros Hne. induction props1 as [|[k' v'] props1 IH]; simpl.
  - destruct (String.eqb_spec k key); congruence.
  - by rewrite IH.
Qed.

Lemma get_insert_fresh (props1 props2 : list (string * value)) (k : string) (v : value) :
  k ∉ Object_keys props1 -> get (props1 ++ (k, v) :: props2) k = v.
Proof.
  induction props1 as [|[k' v'] props1 IH]; simpl; intros Hk.
  - by rewrite String.eqb_refl.
  - apply not_elem_of_cons in Hk as [Hne Hk].
    destruct (String.eqb_spec k' k); [congruence|]. by apply IH.
Qed.

(** Reading a property does not depend on the order the properties were
    created in. *)
Lemma get_Permutation (props1 props2 : list (string * value)) (key : string) :
  well_formed_object props1 -> props1 ≡ₚ props2 -> get props1 key = get props2 key.
Proof.
  unfold well_formed_object, Object_keys. intros Hwf Hperm.
  induction Hperm as [|[k v] l1 l2 Hperm IH|[k1 v1] [k2 v2] l|l1 l2 l3 H12 IH12 H23 IH23].
  - done.
  - simpl in *. apply NoDup_cons in Hwf as [_ Hwf]. by rewrite IH.
  - simpl in *. apply NoDup_cons in Hwf as [Hne _].
    apply not_elem_of_cons in Hne as [Hne _].
    destruct (String.eqb_spec k1 key), (String.eqb_spec k2 key); congruence.
  - rewrite IH12 by done. apply IH23.
    eapply NoDup_Permutation_proper; [|exact Hwf]. by rewrite H12.
Qed.

Lemma get_well_formed (props : list (string * value)) (k : string) (v : value) :
  well_formed_object props -> (k, v) ∈ props -> get props k = v.
Proof.
  unfold well_formed_object, Object_keys.
  induction props as [|[k' v'] props IH]; cbn; [by intros _ ?%elem_of_nil|].
  intros [Hfresh Hwf]%NoDup_cons [[= -> ->] | Hin]%elem_of_cons.
  - by rewrite String.eqb_refl.
  - destruct (String.eqb_spec k' k) as [-> | _]; [|by apply IH].
    exfalso. apply Hfresh. apply list_elem_of_fmap. by exists (k, v).
Qed.

(** ** stableStringify *)

Lemma callback_ext (props1 props2 : list (string * value)) (key : string) :
  get props1 key = get props2 key -> callback props1 key = callback props2 key.
Proof. unfold callback. by intros ->. Qed.

(** The object case of [stableStringify], as the source writes it. *)
Lemma stableStringify_object (props : list (string * value)) :
  IdentityManager.stableStringify (JObj props)
  = Some ("{" +:+ String.concat "," (parts props) +:+ "}").
Proof.
  unfold parts. cbn [IdentityManager.stableStringify].
  do 4 f_equal. apply flat_map_ext. intros key.
  induction props as [|[k v] rest IH]; [done|].
  unfold callback. cbn [get]. destruct (String.eqb k key); [done|]. apply IH.
Qed.

(** The array case. *)
Lemma stableStringify_array (items : list value) :
  IdentityManager.stableStringify (JArr items)
  = Some ("[" +:+ Array_join "," (map IdentityManager.stableStringify items) +:+ "]").
Proof. done. Qed.

(** The first branch: values that are not objects, and [null]. *)
Lemma stableStringify_primitive (obj : value) :
  typeof obj <> "object" \/ obj = JNull ->
  IdentityManager.stableStringify obj = JSON_stringify obj.
Proof. destruct obj; simpl; intros [?|?]; done. Qed.

(** [undefined] comes out for [undefined] and functions only. *)
Lemma stableStringify_undefined (obj : value) :
  IdentityManager.stableStringify obj = None
  <-> is_undefined obj || is_function obj = true.
Proof. destruct obj as [| |[]| | | | |]; simpl; split; done. Qed.

Lemma parts_Permutation (props1 props2 : list (string * value)) :
  well_formed_object props1 -> props1 ≡ₚ props2 -> parts props1 = parts props2.
Proof.
  intros Hwf Hperm. unfold parts.
  rewrite (sort_order_independent (Object_keys props1) (Object_keys props2))
    by (unfold Object_keys; by rewrite Hperm).
  apply flat_map_ext. intros key. by apply callback_ext, get_Permutation.
Qed.

Lemma stableStringify_Permutation (props1 props2 : list (string * value)) :
  well_formed_object props1 -> props1 ≡ₚ props2 ->
  IdentityManager.stableStringify (JObj props1)
  = IdentityManager.stableStringify (JObj props2).
Proof.
  intros Hwf Hperm.
  rewrite !stableStringify_object. by rewrite (parts_Permutation props1 props2).
Qed.

Lemma same_value_typeof (v1 v2 : value) :
  same_value v1 v2 -> is_undefined v1 = is_undefined v2 /\ is_function v1 = is_function v2.
Proof. by destruct 1. Qed.

(** Objects with the same keys in the same order and the same logical
    values push the same parts. *)
Lemma callback_same_value (props1 props2 : list (string * value)) (key : string) :
  Forall2 (fun p q => fst p = fst q /\ same_value (snd p) (snd q)) props1 props2 ->
  Forall (fun p => forall v2, same_value (snd p) v2 ->
                   IdentityManager.stableStringify (snd p)
                   = IdentityManager.stableStringify v2) props1 ->
  callback props1 key = callback props2 key.
Proof.
  unfold callback.
  induction 1 as [|[k1 v1] [k2 v2] props1 props2 [Hk Hv] _ IH]; [done|].
  intros [Hhead Htail]%Forall_cons. cbn in Hk, Hv, Hhead. subst k2. cbn [get].
  destruct (String.eqb k1 key); [|by apply IH].
  destruct (same_value_typeof v1 v2 Hv) as [-> ->]. by rewrite (Hhead v2 Hv).
Qed.

(** Canonicalization does not see the order of properties, at any depth. *)
Lemma stableStringify_same_value (v1 v2 : value) :
  same_value v1 v2 ->
  IdentityManager.stableStringify v1 = IdentityManager.stableStringify v2.
Proof.
  revert v2.
  induction v1 as [| |b|n|s|source|items1 IH|props1 IH] using value_ind';
    intros v2 Hsame; inversion Hsame as [|? items2 Hitems|? reordered props2 Hwf Hperm Hprops];
    subst; try done.
  - rewrite !stableStringify_array. do 4 f_equal. clear Hsame.
    induction Hitems as [|item1 item2 items1 items2 Hitem _ IHitems]; [done|].
    apply Forall_cons in IH as [Hhead Htail]. cbn [map]. rewrite (Hhead item2 Hitem).
    f_equal. by apply IHitems.
  - rewrite (stableStringify_Permutation props1 reordered Hwf Hperm).
    rewrite !stableStringify_object. do 4 f_equal. unfold parts.
    assert (Hkeys : Object_keys reordered = Object_keys props2).
    { unfold Object_keys. clear -Hprops.
      induction Hprops as [|p q ? ? [Hk _] _ IHprops]; [done|]. cbn. by rewrite Hk, IHprops. }
    rewrite Hkeys. apply flat_map_ext. intros key.
    apply callback_same_value; [done|]. by rewrite <- Hperm.
Qed.

(** C5. Canonicalization is deterministic and key-order independent: two
    calls of [stableStringify] on one value give the same string, two
    objects that hold the same properties in different order give the same
    string, and so do two values that differ in the order of properties
    anywhere inside them. *)
Theorem stableStringify_deterministic_key_order_independent :
  (forall obj : value,
     let first := IdentityManager.stableStringify obj in
     let second := IdentityManager.stableStringify obj in
     first = second)
  /\ (forall props1 props2 : list (string * value),
        well_formed_object props1 -> props1 ≡ₚ props2 ->
        IdentityManager.stableStringify (JObj props1)
        = IdentityManager.stableStringify (JObj props2))
  /\ (forall v1 v2 : value,
        same_value v1 v2 ->
        IdentityManager.stableStringify v1 = IdentityManager.stableStringify v2).
Proof.
  split; [done|]. split.
  - apply stableStringify_Permutation.
  - apply stableStringify_same_value.
Qed.

(** ** Lengths of joined parts *)




Lemma flat_map_ext_elem_of {A B} (f g : A -> list B) (l : list A) :
  (forall x, x ∈ l -> f x = g x) -> flat_map f l = flat_map g l.
Proof.
  induction l as [|x l IH]; intros Hfg; [done|]. cbn.
  rewrite (Hfg x) by left. rewrite IH; [done|]. intros y Hy. apply Hfg. by right.
Qed.

Lemma flat_map_filter_nil {A B} `{EqDecision A} (f : A -> list B) (k : A) (l : list A) :
  f k = [] -> flat_map f l = flat_map f (filter (fun x => x <> k) l).
Proof.
  intros Hk. induction l as [|x l IH]; [done|].
  rewrite filter_cons. case_decide as Hx; cbn [flat_map].
  - by rewrite IH.
  - subst x. by rewrite Hk, IH.
Qed.

Lemma Object_keys_app (props1 props2 : list (string * value)) :
  Object_keys (props1 ++ props2) = Object_keys props1 ++ Object_keys props2.
Proof. unfold Object_keys. by rewrite map_app. Qed.

Lemma Object_keys_insert (props1 props2 : list (string * value)) (k : string) (v : value) :
  Object_keys (props1 ++ (k, v) :: props2)
  = Object_keys props1 ++ k :: Object_keys props2.
Proof. unfold Object_keys. by rewrite map_app. Qed.

Lemma callback_insert_other (props1 props2 : list (string * value)) (k : string) (v : value)
    (keys : list string) :
  k ∉ keys ->
  flat_map (callback (props1 ++ (k, v) :: props2)) keys
  = flat_map (callback (props1 ++ props2)) keys.
Proof.
  intros Hk. apply flat_map_ext_elem_of. intros key Hkey.
  apply callback_ext, get_insert_ne. by intros ->.
Qed.





(** C10. In an array, [undefined] and function elements are not left out:
    each is joined as the empty string. So arrays that differ can have the
    same canonical form, as do [[undefined]] and [[]], and with it the same
    signature under every key and every backend. *)
Theorem stableStringify_array_undefined_collision :
  (forall items : list value,
     IdentityManager.stableStringify (JArr items)
     = Some ("[" +:+ String.concat ","
                       (map (fun item =>
                               if is_undefined item || is_function item then ""
                               else default "" (IdentityManager.stableStringify item))
                            items) +:+ "]"))
  /\ IdentityManager.stableStringify (JArr [JUndefined]) = Some "[]"
  /\ IdentityManager.stableStringify (JArr []) = Some "[]"
  /\ JArr [JUndefined] <> JArr []
  /\ (forall (backend : CryptoBackend) (this : IdentityManager.t),
        IdentityManager.sign this (JArr [JUndefined])
        = IdentityManager.sign this (JArr [])).
Proof.
  split; [|done]. intros items. rewrite stableStringify_array.
  unfold Array_join. do 4 f_equal. rewrite map_map. apply map_ext. intros item.
  destruct (is_undefined item || is_function item) eqn:E; [|done].
  apply stableStringify_undefined in E. by rewrite E.
Qed.

Lemma well_formed_two (k1 k2 : string) (v1 v2 : value) :
  k1 <> k2 -> well_formed_object [(k1, v1); (k2, v2)].
Proof.
  intros Hne. unfold well_formed_object. cbn. apply NoDup_cons. split.
  - by intros ?%list_elem_of_singleton.
  - apply NoDup_singleton.
Qed.

(** The C5 theorem at [{a: 1, b: 2}] and [{b: 2, a: 1}], and at
    [{p: {a: 1, b: 2}, q: null}] and [{q: null, p: {b: 2, a: 1}}]. *)
Lemma stableStringify_key_order_witness :
  IdentityManager.stableStringify (JObj [("a", JNum (Int 1)); ("b", JNum (Int 2))])
  = IdentityManager.stableStringify (JObj [("b", JNum (Int 2)); ("a", JNum (Int 1))])
  /\ IdentityManager.stableStringify
       (JObj [("p", JObj [("a", JNum (Int 1)); ("b", JNum (Int 2))]); ("q", JNull)])
     = IdentityManager.stableStringify
         (JObj [("q", JNull); ("p", JObj [("b", JNum (Int 2)); ("a", JNum (Int 1))])]).
Proof.
  destruct stableStringify_deterministic_key_order_independent as (_ & Hflat & Hdeep).
  split.
  - apply Hflat; [by apply well_formed_two | apply perm_swap].
  - apply Hdeep.
    apply (same_object _ [("q", JNull); ("p", JObj [("a", JNum (Int 1)); ("b", JNum (Int 2))])]).
    + by apply well_formed_two.
    + apply perm_swap.
    + repeat constructor.
      apply (same_object _ [("b", JNum (Int 2)); ("a", JNum (Int 1))]).
      * by apply well_formed_two.
      * apply perm_swap.
      * repeat constructor.
Defined.

(** ** IdentityManager.sign and IdentityManager.verify *)

Section Identity.
Context `{CryptoBackend}.

Lemma stableStringify_defined (data : value) :
  is_undefined data || is_function data = false ->
  exists payload, IdentityManager.stableStringify data = Some payload.
Proof.
  intros Hdata. destruct (IdentityManager.stableStringify data) eqn:E; [eauto|].
  apply stableStringify_undefined in E. congruence.
Qed.

(** C2, amended. For every identity whose public key is paired with its
    private key and every data value that has a canonical form, which among
    plain data is every value other than [undefined] and functions (they
    may occur inside arrays and objects), [sign] returns a signature and
    [verify] of the data, that signature and the public key returns
    [true]. *)
Theorem sign_verify_round_trip (this : IdentityManager.t) (data : value) :
  paired (IdentityManager.privateKey this) (IdentityManager.publicKey this) ->
  is_undefined data || is_function data = false ->
  (exists s, IdentityManager.sign this data = Returned s)
  /\ round_trip this data = Returned true.
Proof.
  intros Hpair Hdata.
  destruct (stableStringify_defined data Hdata) as [payload Hpayload].
  destruct (Hpair payload) as (s & Hsign & Hverify).
  unfold round_trip, IdentityManager.sign, IdentityManager.verify.
  rewrite Hpayload. cbn. rewrite Hsign. cbn. rewrite Hverify. eauto.
Qed.

(** Once the data has a canonical form, [verify] is the backend's answer,
    with [false] for an exception. *)
Lemma verify_canonical (data signature publicKey : value) (payload : string) :
  IdentityManager.stableStringify data = Some payload ->
  IdentityManager.verify data signature publicKey
  = Returned (match crypto_verify publicKey payload signature with
              | Returned b => b
              | Thrown _ => false
              end).
Proof.
  intros Hpayload. unfold IdentityManager.verify.
  rewrite Hpayload. cbn. by destruct (crypto_verify _ _ _).
Qed.

(** C6, amended. For every data value that has a canonical form, which
    among plain data is every value other than [undefined] and functions,
    and for every signature and every public key, of whatever shape,
    [verify] returns a boolean: the answer of the backend on the canonical
    form of the data, and [false] when the backend throws. *)
Theorem verify_returns_boolean (data signature publicKey : value) :
  is_undefined data || is_function data = false ->
  exists payload,
    IdentityManager.stableStringify data = Some payload
    /\ IdentityManager.verify data signature publicKey
       = Returned (match crypto_verify publicKey payload signature with
                   | Returned b => b
                   | Thrown _ => false
                   end).
Proof.
  intros Hdata. destruct (stableStringify_defined data Hdata) as [payload Hpayload].
  exists payload. split; [done|]. by apply verify_canonical.
Qed.

(** The data that reaches [verify] from [executeTask] is an object. *)
Lemma verify_object (props : list (string * value)) (signature publicKey : value) :
  exists b, IdentityManager.verify (JObj props) signature publicKey = Returned b.
Proof.
  destruct (stableStringify_defined (JObj props) eq_refl) as [payload Hpayload].
  rewrite (verify_canonical _ _ _ _ Hpayload). eauto.
Qed.
End Identity.

(** ** The example backend *)

Lemma example_paired (who : string) :
  paired (H := example_backend) (JObj [("secret", JStr who)]) (JStr who).
Proof.
  intros payload. eexists. split; [done|]. cbn. by rewrite String.eqb_refl.
Qed.

Lemma example_unforgeable (who : string) :
  unforgeable (H := example_backend) (JObj [("secret", JStr who)]) (JStr who).
Proof.
  intros payload payload' s [= <-] Hne. cbn. intros [= Heq%String.eqb_eq].
  apply Hne. symmetry. by do 2 apply String.app_inj in Heq.
Qed.

Lemma example_can_sign (who : string) :
  can_sign (H := example_backend) (example_identity who).
Proof. intros payload. by eexists. Qed.

(** The C2 theorem at the identity of [AlphaNode] and the data [{a: 1}]. *)
Lemma sign_verify_round_trip_witness :
  round_trip (H := example_backend) (example_identity "AlphaNode")
    (JObj [("a", JNum (Int 1))]) = Returned true.
Proof.
  apply (sign_verify_round_trip (H := example_backend) (example_identity "AlphaNode")).
  - apply example_paired.
  - reflexivity.
Defined.

(** C2 as stated fails at data without a canonical form: for [undefined]
    and for a function, which is an object of JavaScript, [stableStringify]
    returns [undefined], which [update] refuses, so [sign] throws and there
    is no signature to verify. The keys are paired. *)
Lemma sign_undefined_throws :
  paired (H := example_backend)
    (IdentityManager.privateKey (example_identity "AlphaNode"))
    (IdentityManager.publicKey (example_identity "AlphaNode"))
  /\ IdentityManager.stableStringify JUndefined = None
  /\ IdentityManager.sign (H := example_backend) (example_identity "AlphaNode") JUndefined
     = Thrown (TypeError "ERR_INVALID_ARG_TYPE")
  /\ round_trip (H := example_backend) (example_identity "AlphaNode") JUndefined
     <> Returned true
  /\ IdentityManager.stableStringify (JFun "() => 1") = None
  /\ IdentityManager.sign (H := example_backend) (example_identity "AlphaNode")
       (JFun "() => 1")
     = Thrown (TypeError "ERR_INVALID_ARG_TYPE")
  /\ round_trip (H := example_backend) (example_identity "AlphaNode") (JFun "() => 1")
     <> Returned true.
Proof. split; [apply example_paired|done]. Qed.

(** The C6 theorem at a signature and a public key of the wrong type, on
    which the backend throws. *)
Lemma verify_returns_boolean_witness :
  IdentityManager.verify (H := example_backend) (JObj []) (JNum (Int 7)) JNull
  = Returned false.
Proof.
  destruct (verify_returns_boolean (H := example_backend) (JObj []) (JNum (Int 7)) JNull)
    as (payload & Hpayload & Hverify); [reflexivity|].
  rewrite Hverify. reflexivity.
Defined.

(** C6 as stated fails at data without a canonical form, [undefined] or a
    function: the calls of [stableStringify] and [update] stand before the
    [try] block, and what [update] throws leaves [verify]. *)
Lemma verify_undefined_throws :
  IdentityManager.verify (H := example_backend) JUndefined (JStr "00") (JStr "AlphaNode")
  = Thrown (TypeError "ERR_INVALID_ARG_TYPE")
  /\ IdentityManager.verify (H := example_backend) (JFun "() => 1") (JStr "00")
       (JStr "AlphaNode")
     = Thrown (TypeError "ERR_INVALID_ARG_TYPE").
Proof. split; reflexivity. Qed.

(** ** Executor._createSignedResult *)

(** Membership of a key in a list of literal keys. *)
Ltac key_in := rewrite ?elem_of_cons; repeat first [left; reflexivity | right].
Ltac key_not_in H :=
  exfalso; rewrite ?elem_of_cons, elem_of_nil in H; intuition discriminate.

Section Results.
Context `{CryptoBackend}.

Lemma sign_object_returns (this : IdentityManager.t) (props : list (string * value)) :
  can_sign this -> exists s, IdentityManager.sign this (JObj props) = Returned s.
Proof.
  intros Hsign. unfold IdentityManager.sign.
  rewrite stableStringify_object. cbn. apply Hsign.
Qed.

Lemma createSignedResult_returns (this : Executor.t) (now : Z) (taskId : value)
    (status : string) (result error : value) :
  can_sign (Executor.identity this) ->
  exists r, Executor._createSignedResult this now taskId status result error = Returned r.
Proof.
  intros Hsign. unfold Executor._createSignedResult.
  destruct (String.eqb status "success");
    match goal with
    | |- context [IdentityManager.sign _ (JObj ?props)] =>
        destruct (sign_object_returns (Executor.identity this) props Hsign) as [s ->]
    end; cbn; eauto.
Qed.

(** Every result it returns is signed over the other fields and has the
    field that goes with its status. *)
Lemma createSignedResult_signed (this : Executor.t) (now : Z) (taskId : value)
    (status : string) (result error r : value) :
  status = "success" \/ status = "failure" ->
  Executor._createSignedResult this now taskId status result error = Returned r ->
  signed_result this r.
Proof.
  unfold Executor._createSignedResult.
  intros [-> | ->]; cbn [String.eqb Ascii.eqb Bool.eqb];
    match goal with
    | |- context [IdentityManager.sign ?i ?d] =>
        destruct (IdentityManager.sign i d) as [s|] eqn:Hs
    end; cbn; intros [= <-].
  - eexists _, s, "success". split; [reflexivity|]. cbn.
    repeat split; try done; try (by eauto).
    + intros _. key_in.
    + intros Hin. key_not_in Hin.
  - eexists _, s, "failure". split; [reflexivity|]. cbn.
    repeat split; try done; try (by eauto).
    + intros Hin. key_not_in Hin.
    + intros _. key_in.
Qed.

Lemma createSignedResult_failure (this : Executor.t) (now : Z) (taskId : value)
    (message : string) (r : value) :
  Executor._createSignedResult this now taskId "failure" JNull (JStr message) = Returned r ->
  failure_result this r message.
Proof.
  intros Hr. pose proof (createSignedResult_signed _ _ _ _ _ _ _ (or_intror eq_refl) Hr) as Hsigned.
  revert Hr. unfold Executor._createSignedResult. cbn [String.eqb Ascii.eqb Bool.eqb].
  match goal with
  | |- context [IdentityManager.sign ?i ?d] =>
      destruct (IdentityManager.sign i d) as [s|] eqn:Hs
  end; cbn; intros [= <-].
  by eexists.
Qed.
End Results.

(** ** Executor.executeTask *)

Section Pipeline.
Context `{CryptoBackend}.

(** What [ToString] throws is a [TypeError], which has a message. *)
Lemma ToString_throws_TypeError (v e : value) :
  ToString v = Thrown e -> exists m : string, property e "message" = Returned (JStr m).
Proof.
  revert e. induction v as [| |b|n|s|source|items IH|props _] using value_ind'; intros e;
    try (destruct b); cbn [ToString]; try done.
  - induction IH as [|item items Hitem _ IHitems]; [done|]. revert IHitems.
    match goal with
    | |- _ -> (?head ≫= _) ≫= _ = _ -> _ => destruct head as [text|e'] eqn:Hhead
    end; cbn [mbind outcome_bind].
    + match goal with
      | |- _ -> (?elements ≫= _) ≫= _ = _ -> _ => destruct elements as [texts|e'']
      end; cbn [mbind outcome_bind mret outcome_ret]; [done|]. intros IHitems. apply IHitems.
    + intros _ [= <-]. destruct item; try done; by apply Hitem.
  - case_bool_decide; [|done]. intros [= <-]. by eexists.
Qed.

Lemma property_returns (v : value) (name : string) :
  v <> JUndefined -> v <> JNull -> exists field, property v name = Returned field.
Proof. destruct v; cbn; intros; try done; eauto. Qed.

Lemma destructure_returns (signedTask : value) :
  signedTask <> JUndefined -> signedTask <> JNull ->
  exists task,
    destructure signedTask = Returned task
    /\ capabilityId task = get_field signedTask "capabilityId".
Proof. destruct signedTask; cbn; intros; try done; eauto. Qed.

Lemma handlers_get_Some (this : Executor.t) (capabilityId : value) (key : string) (h : handler) :
  Executor.handlers_get this capabilityId = Some (key, h) ->
  capabilityId = JStr key /\ Executor.handlers this !! key = Some h.
Proof.
  destruct capabilityId; cbn; try done.
  destruct (Executor.handlers this !! s) eqn:E; cbn; [|done]. by intros [= <- <-].
Qed.

Lemma validateCapability_throws (this : CapabilityManager.t) (capabilityId input err : value) :
  (forall cap, cap ∈ CapabilityManager.capabilities this ->
               throws_errors (parse (CapabilityManager._inputSchemaZod cap))) ->
  CapabilityManager.validateCapability this capabilityId input = Thrown err ->
  exists m : string, property err "message" = Returned (JStr m).
Proof.
  intros Hschemas. unfold CapabilityManager.validateCapability, CapabilityManager.find_capability.
  destruct (List.find _ _) as [cap|] eqn:Hfind.
  - apply find_some in Hfind as [Hin%list_elem_of_In _]. by apply Hschemas.
  - destruct (ToString capabilityId) as [text|e] eqn:Htext; cbn [mbind outcome_bind].
    + intros [= <-]. by eexists.
    + intros [= <-]. revert Htext. apply ToString_throws_TypeError.
Qed.

(** The steps of the pipeline, one equation for each way out. *)
Lemma executeTask_auth_failed (this : Executor.t) (now : Z) (signedTask : value) (task : Task) :
  destructure signedTask = Returned task ->
  IdentityManager.verify (dataToVerify task) (signature task) (publicKey task)
  = Returned false ->
  Executor.executeTask this now signedTask
  = (Executor._createSignedResult this now (taskId task) "failure" JNull (JStr AUTH_FAILED),
     []).
Proof. intros Htask Hverify. unfold Executor.executeTask. by rewrite Htask, Hverify. Qed.

Lemma executeTask_schema_failed (this : Executor.t) (now : Z) (signedTask : value)
    (task : Task) (key : string) (h : handler) (e : value) :
  destructure signedTask = Returned task ->
  IdentityManager.verify (dataToVerify task) (signature task) (publicKey task)
  = Returned true ->
  Executor.handlers_get this (capabilityId task) = Some (key, h) ->
  CapabilityManager.validateCapability (Executor.capabilityManager this)
    (capabilityId task) (payload task) = Thrown e ->
  Executor.executeTask this now signedTask
  = (message ← property e "message";
     text ← ToString message;
     Executor._createSignedResult this now (taskId task) "failure" JNull
       (JStr ("Schema Validation Failed: " +:+ text)), []).
Proof.
  intros Htask Hverify Hhandler Hvalidate. unfold Executor.executeTask.
  by rewrite Htask, Hverify, Hhandler, Hvalidate.
Qed.

Lemma executeTask_handler_called (this : Executor.t) (now : Z) (signedTask : value)
    (task : Task) (key : string) (h : handler) (validated : value) :
  destructure signedTask = Returned task ->
  IdentityManager.verify (dataToVerify task) (signature task) (publicKey task)
  = Returned true ->
  Executor.handlers_get this (capabilityId task) = Some (key, h) ->
  CapabilityManager.validateCapability (Executor.capabilityManager this)
    (capabilityId task) (payload task) = Returned validated ->
  Executor.executeTask this now signedTask
  = (match resultData ← h (payload task);
           Executor._createSignedResult this now (taskId task) "success"
             resultData JUndefined with
     | Returned signedResult => Returned signedResult
     | Thrown err =>
         message ← property err "message";
         Executor._createSignedResult this now (taskId task) "failure" JNull message
     end, [Call key (payload task)]).
Proof.
  intros Htask Hverify Hhandler Hvalidate. unfold Executor.executeTask.
  by rewrite Htask, Hverify, Hhandler, Hvalidate.
Qed.

(** Whatever [executeTask] returns came out of [_createSignedResult] with
    one of the two literal statuses. *)
Lemma executeTask_returned (this : Executor.t) (now : Z) (signedTask r : value)
    (calls : list call) :
  Executor.executeTask this now signedTask = (Returned r, calls) ->
  exists taskId status result error,
    (status = "success" \/ status = "failure")
    /\ Executor._createSignedResult this now taskId status result error = Returned r.
Proof.
  unfold Executor.executeTask.
  destruct (destructure signedTask) as [task|]; [|done].
  destruct (IdentityManager.verify _ _ _) as [[|]|]; [| |done].
  - destruct (Executor.handlers_get _ _) as [[key h]|].
    + destruct (CapabilityManager.validateCapability _ _ _) as [validated|e].
      * cbv zeta.
        destruct (h (payload task)) as [resultData|err]; cbn [mbind outcome_bind].
        -- destruct (Executor._createSignedResult this now (taskId task) "success"
                       resultData JUndefined) as [signedResult|err] eqn:Hsuccess.
           ++ intros [= <- _]. do 4 eexists. split; [|exact Hsuccess]; auto.
           ++ destruct (property err "message") as [message|]; cbn [mbind outcome_bind]; [|done].
              intros [= Hr _]. do 4 eexists. split; [|exact Hr]; auto.
        -- destruct (property err "message") as [message|]; cbn [mbind outcome_bind]; [|done].
           intros [= Hr _]. do 4 eexists. split; [|exact Hr]; auto.
      * destruct (property e "message") as [message|]; cbn [mbind outcome_bind]; [|done].
        destruct (ToString message) as [text|]; cbn [mbind outcome_bind]; [|done].
        intros [= Hr _]. do 4 eexists. split; [|exact Hr]; auto.
    + destruct (ToString (capabilityId task)) as [text|]; cbn [mbind outcome_bind]; [|done].
      intros [= Hr _]. do 4 eexists. split; [|exact Hr]; auto.
  - intros [= Hr _]. do 4 eexists. split; [|exact Hr]; auto.
Qed.

(** C4. Every result [executeTask] returns is signed by the executor's
    identity over all its other fields, has the status [success] or
    [failure], and has exactly one of the fields [result] and [error],
    [result] when the status is [success]. And [executeTask] does return
    one for a task object, when the backend accepts the executor's key, the
    capability id of the task converts to a string, schemas throw errors
    and handlers throw objects. *)
Theorem executeTask_result_signed (this : Executor.t) (now : Z) (signedTask : value) :
  (forall (r : value) (calls : list call),
     Executor.executeTask this now signedTask = (Returned r, calls) ->
     signed_result this r)
  /\ (signedTask <> JUndefined -> signedTask <> JNull ->
      can_sign (Executor.identity this) ->
      (exists text, ToString (get_field signedTask "capabilityId") = Returned text) ->
      (forall cap, cap ∈ CapabilityManager.capabilities (Executor.capabilityManager this) ->
                   throws_errors (parse (CapabilityManager._inputSchemaZod cap))) ->
      (forall key h, Executor.handlers this !! key = Some h -> throws_objects h) ->
      exists (r : value) (calls : list call),
        Executor.executeTask this now signedTask = (Returned r, calls)).
Proof.
  split.
  - intros r calls (taskId & status & result & error & Hstatus & Hr)%executeTask_returned.
    by eapply createSignedResult_signed.
  - intros Hundef Hnull Hsign [text Htext] Hschemas Hhandlers.
    destruct (destructure_returns signedTask Hundef Hnull) as (task & Htask & Hid).
    rewrite <- Hid in Htext.
    destruct (verify_object
                [("taskId", taskId task); ("requesterId", requesterId task);
                 ("capabilityId", capabilityId task); ("payload", payload task);
                 ("timestamp", timestamp task)] (signature task) (publicKey task))
      as [valid Hverify].
    unfold Executor.executeTask. rewrite Htask. unfold dataToVerify. rewrite Hverify.
    destruct valid.
    + destruct (Executor.handlers_get _ _) as [[key h]|] eqn:Hget.
      * apply handlers_get_Some in Hget as [_ Hh].
        destruct (CapabilityManager.validateCapability _ _ _) as [validated|e] eqn:Hvalidate.
        -- cbv zeta.
           destruct (h (payload task)) as [resultData|err] eqn:Hcall; cbn [mbind outcome_bind].
           ++ destruct (createSignedResult_returns this now (taskId task) "success"
                          resultData JUndefined Hsign) as [r ->]. eauto.
           ++ destruct (Hhandlers key h Hh _ _ Hcall) as [Herr1 Herr2].
              destruct (property_returns err "message" Herr1 Herr2) as [message ->]. cbn [mbind outcome_bind].
              destruct (createSignedResult_returns this now (taskId task) "failure"
                          JNull message Hsign) as [r ->]. eauto.
        -- destruct (validateCapability_throws _ _ _ _ Hschemas Hvalidate) as [m ->].
           cbn [mbind outcome_bind ToString].
           match goal with
           | |- context [Executor._createSignedResult ?t ?n ?i ?s ?r ?e] =>
               destruct (createSignedResult_returns t n i s r e Hsign) as [r' ->]
           end. eauto.
      * rewrite Htext. cbn [mbind outcome_bind].
        match goal with
        | |- context [Executor._createSignedResult ?t ?n ?i ?s ?r ?e] =>
            destruct (createSignedResult_returns t n i s r e Hsign) as [r' ->]
        end. eauto.
    + match goal with
      | |- context [Executor._createSignedResult ?t ?n ?i ?s ?r ?e] =>
          destruct (createSignedResult_returns t n i s r e Hsign) as [r' ->]
      end. eauto.
Qed.

(** C7. A task that passes signature verification, names a capability with
    a registered handler and whose payload the capability's input schema
    rejects with an error of message [message] gets a signed failure
    result with the diagnostic [Schema Validation Failed: message], and no
    handler is called. *)
Theorem executeTask_schema_validation_failed (this : Executor.t) (now : Z)
    (signedTask : value) (task : Task) (key : string) (h : handler)
    (cap : CapabilityManager.Capability) (e : value) (message : string) :
  can_sign (Executor.identity this) ->
  destructure signedTask = Returned task ->
  IdentityManager.verify (dataToVerify task) (signature task) (publicKey task)
  = Returned true ->
  Executor.handlers_get this (capabilityId task) = Some (key, h) ->
  CapabilityManager.find_capability (Executor.capabilityManager this) (capabilityId task)
  = Some cap ->
  parse (CapabilityManager._inputSchemaZod cap) (payload task) = Thrown e ->
  property e "message" = Returned (JStr message) ->
  exists r,
    Executor.executeTask this now signedTask = (Returned r, [])
    /\ failure_result this r ("Schema Validation Failed: " +:+ message).
Proof.
  intros Hsign Htask Hverify Hhandler Hfind Hparse Hmessage.
  rewrite (executeTask_schema_failed this now signedTask task key h e Htask Hverify Hhandler).
  - rewrite Hmessage. cbn [mbind outcome_bind ToString].
    match goal with
    | |- context [Executor._createSignedResult ?t ?n ?i ?s ?r ?e] =>
        destruct (createSignedResult_returns t n i s r e Hsign) as [r' Hr']
    end.
    exists r'. split; [by rewrite Hr'|]. by eapply createSignedResult_failure.
  - unfold CapabilityManager.validateCapability. by rewrite Hfind.
Qed.

(** Whatever validation returns, the handler of a task that passes the three
    gates is called once, with the payload as received in the task: the
    value of [validateCapability] is not bound to anything. *)
Lemma executeTask_handler_gets_task_payload (this : Executor.t) (now : Z)
    (signedTask : value) (task : Task) (key : string) (h : handler) (validated : value) :
  destructure signedTask = Returned task ->
  IdentityManager.verify (dataToVerify task) (signature task) (publicKey task)
  = Returned true ->
  Executor.handlers_get this (capabilityId task) = Some (key, h) ->
  CapabilityManager.validateCapability (Executor.capabilityManager this)
    (capabilityId task) (payload task) = Returned validated ->
  snd (Executor.executeTask this now signedTask) = [Call key (payload task)].
Proof.
  intros Htask Hverify Hhandler Hvalidate.
  by rewrite (executeTask_handler_called this now signedTask task key h validated).
Qed.
End Pipeline.

(** ** Reading a canonical text back

    On JSON data the canonical form is injective up to the order of
    properties: the text can be read back, character by character. *)

Lemma append_assoc (s1 s2 s3 : string) : (s1 +:+ s2) +:+ s3 = s1 +:+ (s2 +:+ s3).
Proof.
  induction s1 as [|c s1 IH]; [done|].
  change (String c ((s1 +:+ s2) +:+ s3) = String c (s1 +:+ (s2 +:+ s3))). by rewrite IH.
Qed.

Lemma append_nil_r (s : string) : s +:+ "" = s.
Proof.
  induction s as [|c s IH]; [done|]. change (String c (s +:+ "") = String c s). by rewrite IH.
Qed.

Lemma append_cons (c : ascii) (s1 s2 : string) : String c s1 +:+ s2 = String c (s1 +:+ s2).
Proof. reflexivity. Qed.

(** *** Strings *)

(** The reader undoes the quoting of one code unit, whatever follows. *)
Lemma read_quote_code_unit (c : ascii) (rest : string) :
  read_code_unit (quote_code_unit c +:+ rest) = Some (c, rest).
Proof. destruct c as [[] [] [] [] [] [] [] []]; reflexivity. Qed.

Lemma quote_code_units_unique (s1 s2 r1 r2 : string) :
  quote_code_units s1 +:+ String double_quote r1
  = quote_code_units s2 +:+ String double_quote r2 ->
  s1 = s2 /\ r1 = r2.
Proof.
  revert s2. induction s1 as [|c1 s1 IH]; intros [|c2 s2]; cbn [quote_code_units].
  - by intros [= ->].
  - rewrite append_assoc. intros Heq%(f_equal read_code_unit).
    rewrite read_quote_code_unit in Heq. discriminate Heq.
  - rewrite append_assoc. intros Heq%(f_equal read_code_unit).
    rewrite read_quote_code_unit in Heq. discriminate Heq.
  - rewrite !append_assoc. intros Heq%(f_equal read_code_unit).
    rewrite !read_quote_code_unit in Heq. injection Heq as -> Heq.
    by destruct (IH _ Heq) as [-> ->].
Qed.

Lemma QuoteJSONString_unique (s1 s2 r1 r2 : string) :
  QuoteJSONString s1 +:+ r1 = QuoteJSONString s2 +:+ r2 -> s1 = s2 /\ r1 = r2.
Proof.
  unfold QuoteJSONString. rewrite !append_cons, !append_assoc, !append_cons.
  intros [= Heq]. by apply quote_code_units_unique.
Qed.

(** *** Numbers *)

Lemma is_digit_pretty_N_char (x : N) : is_digit (pretty_N_char x) = true.
Proof. unfold pretty_N_char. by repeat case_match. Qed.

Lemma digits_app (s1 s2 : string) :
  digits s1 = true -> digits s2 = true -> digits (s1 +:+ s2) = true.
Proof.
  induction s1 as [|c s1 IH]; [done|]. rewrite append_cons. cbn [digits].
  intros [-> H1]%andb_prop H2. by rewrite IH.
Qed.

Lemma pretty_N_go_digits (x : N) (s : string) :
  exists d, pretty_N_go x s = d +:+ s /\ digits d = true /\ ((0 < x)%N -> d <> "").
Proof.
  revert s. induction (N.lt_wf_0 x) as [x _ IH]; intros s.
  assert (x = 0 \/ 0 < x)%N as [->|Hx] by lia.
  - exists "". rewrite pretty_N_go_0. split; [done|]. split; [done|]. lia.
  - rewrite pretty_N_go_step by done.
    destruct (IH (x `div` 10)%N (N.div_lt x 10 Hx eq_refl)
                 (String (pretty_N_char (x `mod` 10)) s)) as (d & -> & Hd & _).
    exists (d +:+ String (pretty_N_char (x `mod` 10)) "").
    split; [by rewrite append_assoc|]. split.
    + apply digits_app; [done|]. cbn [digits]. by rewrite is_digit_pretty_N_char.
    + intros _. by destruct d.
Qed.

Lemma pretty_N_digits (x : N) : digits (pretty x) = true /\ pretty x <> "".
Proof.
  unfold pretty, pretty_N. case_decide as Hx; [done|].
  destruct (pretty_N_go_digits x "") as (d & -> & Hd & Hne).
  rewrite append_nil_r. split; [done|]. apply Hne. lia.
Qed.

(** The decimal text of an integer: digits, after a minus sign for a
    negative one. *)
Lemma pretty_Z_digits (z : Z) :
  exists d, digits d = true /\ d <> "" /\ (pretty z = d \/ pretty z = String "-" d).
Proof.
  destruct z as [|p|p].
  - exists "0". by auto.
  - exists (pretty (Npos p)). destruct (pretty_N_digits (Npos p)). by auto.
  - exists (pretty (Npos p)). destruct (pretty_N_digits (Npos p)). by auto.
Qed.

Lemma digits_number_chars (d : string) : digits d = true -> number_chars d = true.
Proof.
  induction d as [|c d IH]; [done|]. cbn [digits number_chars].
  intros [Hc Hd]%andb_prop. unfold is_number_char. by rewrite Hc, IH.
Qed.

(** A number ends where the number characters end. *)
Lemma number_chars_unique (d1 d2 r1 r2 : string) :
  number_chars d1 = true -> number_chars d2 = true ->
  delimited r1 = true -> delimited r2 = true ->
  d1 +:+ r1 = d2 +:+ r2 -> d1 = d2 /\ r1 = r2.
Proof.
  revert d2. induction d1 as [|c1 d1 IH]; intros [|c2 d2]; rewrite ?append_cons;
    cbn [number_chars].
  - done.
  - intros _ [Hc _]%andb_prop Hr1 _ Heq. change ("" +:+ r1) with r1 in Heq. subst r1.
    cbn in Hr1. by rewrite Hc in Hr1.
  - intros [Hc _]%andb_prop _ _ Hr2 Heq. change ("" +:+ r2) with r2 in Heq. subst r2.
    cbn in Hr2. by rewrite Hc in Hr2.
  - intros [_ H1]%andb_prop [_ H2]%andb_prop Hr1 Hr2 [= -> Heq].
    by destruct (IH _ H1 H2 Hr1 Hr2 Heq) as [-> ->].
Qed.

Lemma is_number_char_sign_or_digit (c : ascii) :
  is_digit c || Ascii.eqb c "-" = true -> is_number_char c = true.
Proof. destruct c as [[] [] [] [] [] [] [] []]; try discriminate; reflexivity. Qed.

(** The text of a JSON number: a digit or the minus sign, then number
    characters, all of them digits exactly for an integer. *)
Lemma JSON_number_shape (n : number) :
  is_json (JNum n) = true ->
  exists c rest,
    JSON_number n = String c rest
    /\ is_digit c || Ascii.eqb c "-" = true
    /\ number_chars rest = true
    /\ digits rest = match n with Int _ => true | _ => false end.
Proof.
  destruct n as [z|text| |]; try discriminate.
  - intros _. cbn [JSON_number].
    destruct (pretty_Z_digits z) as (d & Hd & Hne & [-> | ->]).
    + destruct d as [|c d]; [done|]. cbn [digits] in Hd. apply andb_prop in Hd as [Hc Hd].
      exists c, d. rewrite Hc. by auto using digits_number_chars.
    + exists "-"%char, d. by auto using digits_number_chars.
  - cbn [is_json JSON_number]. destruct text as [|c rest]; [done|]. cbn [is_decimal_text].
    intros [[Hc Hrest]%andb_prop Hdigits%negb_true_iff]%andb_prop. by exists c, rest.
Qed.

Lemma JSON_number_unique (n1 n2 : number) (r1 r2 : string) :
  is_json (JNum n1) = true -> is_json (JNum n2) = true ->
  delimited r1 = true -> delimited r2 = true ->
  JSON_number n1 +:+ r1 = JSON_number n2 +:+ r2 -> n1 = n2 /\ r1 = r2.
Proof.
  intros Hn1 Hn2 Hr1 Hr2 Heq.
  destruct (JSON_number_shape n1 Hn1) as (c1 & d1 & E1 & Hc1 & Hd1 & Hint1),
           (JSON_number_shape n2 Hn2) as (c2 & d2 & E2 & Hc2 & Hd2 & Hint2).
  assert (Htext : JSON_number n1 = JSON_number n2 /\ r1 = r2).
  { rewrite E1, E2 in *. apply number_chars_unique; try done.
    - cbn [number_chars]. by rewrite is_number_char_sign_or_digit.
    - cbn [number_chars]. by rewrite is_number_char_sign_or_digit. }
  destruct Htext as [Htext ->]. split; [|done].
  rewrite E1, E2 in Htext. injection Htext as -> ->. rewrite Hint1 in Hint2.
  destruct n1 as [z1|text1| |], n2 as [z2|text2| |]; try discriminate.
  - f_equal. apply (inj pretty). cbn [JSON_number] in E1, E2. congruence.
  - cbn [JSON_number] in E1, E2. congruence.
Qed.

(** *** The first character *)

Lemma kind_of_sign_or_digit (c : ascii) :
  is_digit c || Ascii.eqb c "-" = true -> kind_of_char c = 3%N.
Proof. destruct c as [[] [] [] [] [] [] [] []]; try discriminate; reflexivity. Qed.

Lemma is_json_defined (v : value) : is_json v = true -> is_undefined v || is_function v = false.
Proof. by destruct v as [| | |[]| | | |]. Qed.

Lemma canonical_Some (v : value) :
  is_json v = true -> IdentityManager.stableStringify v = Some (canonical v).
Proof.
  intros Hv%is_json_defined. unfold canonical.
  destruct (IdentityManager.stableStringify v) eqn:E; [done|].
  apply stableStringify_undefined in E. congruence.
Qed.

Lemma canonical_kind (v : value) :
  is_json v = true ->
  exists c rest, canonical v = String c rest /\ kind_of_char c = kind v.
Proof.
  destruct v as [| |[]|n|s| |items|props]; try discriminate;
    try (intros _; by eexists _, _).
  intros (c & rest & Htext & Hc & _)%JSON_number_shape.
  exists c, rest. split; [exact Htext|]. by apply kind_of_sign_or_digit.
Qed.

(** A canonical text is never the start of a closing bracket, a comma or a
    colon: values of different types start differently. *)
Lemma canonical_kind_eq (v1 v2 : value) (r1 r2 : string) :
  is_json v1 = true -> is_json v2 = true ->
  canonical v1 +:+ r1 = canonical v2 +:+ r2 -> kind v1 = kind v2.
Proof.
  intros (c1 & rest1 & -> & <-)%canonical_kind (c2 & rest2 & -> & <-)%canonical_kind.
  rewrite !append_cons. by intros [= -> _].
Qed.

Lemma canonical_not_closing (v : value) (r1 r2 : string) (c : ascii) :
  is_json v = true -> kind_of_char c = 7%N ->
  String c r1 <> canonical v +:+ r2.
Proof.
  intros Hv Hc. destruct (canonical_kind v Hv) as (c' & rest & -> & Hkind).
  rewrite append_cons. intros [= -> _].
  rewrite Hc in Hkind. by destruct v as [| |[]| | | | |].
Qed.

(** *** Lists of elements and of members *)

Lemma concat_cons_append (sep x : string) (l : list string) (rest : string) :
  String.concat sep (x :: l) +:+ rest
  = x +:+ match l with
          | [] => rest
          | _ :: _ => sep +:+ (String.concat sep l +:+ rest)
          end.
Proof. destruct l; [done|]. cbn [String.concat]. by rewrite !append_assoc. Qed.

Lemma is_json_array (items : list value) :
  is_json (JArr items) = true <-> Forall (fun v => is_json v = true) items.
Proof.
  cbn [is_json]. induction items as [|v items IH]; cbn [forallb]; [done|].
  rewrite andb_true_iff, IH, Forall_cons. done.
Qed.

Lemma is_json_object (props : list (string * value)) :
  is_json (JObj props) = true
  <-> well_formed_object props /\ Forall (fun p => is_json (snd p) = true) props.
Proof.
  cbn [is_json]. rewrite andb_true_iff, bool_decide_eq_true.
  apply and_iff_compat_l.
  induction props as [|[k v] props IH]; [done|].
  rewrite andb_true_iff, IH, Forall_cons. done.
Qed.

Lemma is_json_get (props : list (string * value)) (key : string) :
  Forall (fun p => is_json (snd p) = true) props ->
  key ∈ Object_keys props -> is_json (get props key) = true.
Proof.
  induction 1 as [|[k v] props Hv _ IH]; cbn [Object_keys map get fst].
  - by intros ?%elem_of_nil.
  - intros [->|Hin]%elem_of_cons.
    + by rewrite String.eqb_refl.
    + destruct (String.eqb k key); [done|]. by apply IH.
Qed.

Lemma elem_of_get (props : list (string * value)) (key : string) :
  key ∈ Object_keys props -> (key, get props key) ∈ props.
Proof.
  induction props as [|[k v] props IH]; cbn [Object_keys map get fst].
  - by intros ?%elem_of_nil.
  - destruct (String.eqb_spec k key) as [->|Hne].
    + intros _. apply elem_of_cons. by left.
    + intros [->|Hin]%elem_of_cons; [done|]. apply elem_of_cons. right. by apply IH.
Qed.

Lemma callback_json (props : list (string * value)) (key : string) :
  is_json (get props key) = true -> callback props key = [member props key].
Proof.
  intros Hv. unfold callback, member.
  rewrite (canonical_Some _ Hv). apply is_json_defined in Hv.
  apply orb_false_elim in Hv as [-> ->]. done.
Qed.

Lemma parts_json (props : list (string * value)) :
  Forall (fun p => is_json (snd p) = true) props ->
  parts props = map (member props) (sort (Object_keys props)).
Proof.
  intros Hprops. unfold parts.
  rewrite (flat_map_ext_elem_of _ (fun key => [member props key])).
  - induction (sort (Object_keys props)) as [|k ks IH]; [done|]. cbn. by rewrite IH.
  - intros key Hin. apply callback_json, is_json_get; [done|].
    by rewrite sort_Permutation in Hin.
Qed.

Lemma canonical_array (items : list value) :
  canonical (JArr items) = String "[" (String.concat "," (map canonical items) +:+ "]").
Proof.
  unfold canonical at 1. cbn [IdentityManager.stableStringify default].
  unfold Array_join. by rewrite map_map.
Qed.

Lemma canonical_object (props : list (string * value)) :
  canonical (JObj props) = String "{" (String.concat "," (parts props) +:+ "}").
Proof. unfold canonical. by rewrite stableStringify_object. Qed.

Lemma items_unique (items1 : list value) :
  Forall (fun v => is_json v = true -> readable v) items1 ->
  Forall (fun v => is_json v = true) items1 ->
  forall (items2 : list value) (r1 r2 : string),
    Forall (fun v => is_json v = true) items2 ->
    String.concat "," (map canonical items1) +:+ String "]" r1
    = String.concat "," (map canonical items2) +:+ String "]" r2 ->
    Forall2 same_value items1 items2 /\ r1 = r2.
Proof.
  induction 1 as [|v1 l1 Hread _ IH]; intros Hjson1 [|v2 l2] r1 r2 Hjson2.
  - by intros [= ->].
  - cbn [map]. rewrite concat_cons_append. intros Heq. exfalso.
    apply Forall_cons in Hjson2 as [Hv2 _].
    by apply (canonical_not_closing v2 r1 _ "]" Hv2 eq_refl) in Heq.
  - cbn [map]. rewrite concat_cons_append. intros Heq. exfalso.
    apply Forall_cons in Hjson1 as [Hv1 _]. symmetry in Heq.
    by apply (canonical_not_closing v1 r2 _ "]" Hv1 eq_refl) in Heq.
  - apply Forall_cons in Hjson1 as [Hv1 Hl1]. apply Forall_cons in Hjson2 as [Hv2 Hl2].
    cbn [map]. rewrite !concat_cons_append. intros Heq.
    apply (Hread Hv1 v2) in Heq as [Hsame Htail]; [|done| |].
    + specialize (IH Hl1). destruct l1 as [|a l1], l2 as [|b l2]; cbn [map] in Htail.
      * injection Htail as ->. by repeat constructor.
      * discriminate Htail.
      * discriminate Htail.
      * injection Htail as Htail. apply (IH (b :: l2)) in Htail as [Hrest ->]; [|done].
        split; [|done]. by constructor.
    + by destruct l1.
    + by destruct l2.
Qed.

Lemma member_append (props : list (string * value)) (key rest : string) :
  member props key +:+ rest
  = QuoteJSONString key +:+ String ":" (canonical (get props key) +:+ rest).
Proof. unfold member. by rewrite !append_assoc. Qed.

Lemma members_unique (props1 props2 : list (string * value)) (keys1 : list string) :
  (forall k, k ∈ keys1 -> is_json (get props1 k) = true /\ readable (get props1 k)) ->
  forall (keys2 : list string) (r1 r2 : string),
    (forall k, k ∈ keys2 -> is_json (get props2 k) = true) ->
    String.concat "," (map (member props1) keys1) +:+ String "}" r1
    = String.concat "," (map (member props2) keys2) +:+ String "}" r2 ->
    keys1 = keys2
    /\ (forall k, k ∈ keys1 -> same_value (get props1 k) (get props2 k))
    /\ r1 = r2.
Proof.
  induction keys1 as [|k1 l1 IH]; intros Hkeys1 [|k2 l2] r1 r2 Hkeys2.
  - intros [= ->]. split; [done|]. split; [|done]. by intros k ?%elem_of_nil.
  - cbn [map]. rewrite concat_cons_append, member_append. unfold QuoteJSONString.
    rewrite !append_cons. intros [=].
  - cbn [map]. rewrite concat_cons_append, member_append. unfold QuoteJSONString.
    rewrite !append_cons. intros [=].
  - cbn [map]. rewrite !concat_cons_append, !member_append.
    intros [-> Heq]%QuoteJSONString_unique. injection Heq as Heq.
    destruct (Hkeys1 k2) as [Hv1 Hread]; [by left|].
    apply (Hread (get props2 k2)) in Heq as [Hsame Htail]; [|apply Hkeys2; by left| |].
    + assert (IH' := IH (fun k Hk => Hkeys1 k (proj2 (elem_of_cons _ _ _) (or_intror Hk)))).
      assert (Hkeys2' : forall k, k ∈ l2 -> is_json (get props2 k) = true)
        by (intros k Hk; apply Hkeys2; by right).
      destruct l1 as [|a l1], l2 as [|b l2]; cbn [map] in Htail.
      * injection Htail as ->. split; [done|]. split; [|done].
        by intros k ->%list_elem_of_singleton.
      * discriminate Htail.
      * discriminate Htail.
      * injection Htail as Htail.
        apply (IH' (b :: l2)) in Htail as (Hrest & Hvalues & ->); [|done].
        rewrite Hrest. split; [done|]. split; [|done].
        intros k [->|Hk]%elem_of_cons; [done|]. apply Hvalues. by rewrite Hrest.
    + by destruct l1.
    + by destruct l2.
Qed.

(** *** Objects with the same members *)

Lemma props_as_map (props : list (string * value)) :
  well_formed_object props ->
  props = map (fun k => (k, get props k)) (Object_keys props).
Proof.
  intros Hwf. unfold Object_keys. rewrite map_map.
  rewrite <- (map_id props) at 1. apply map_ext_in.
  intros [k v] Hin%list_elem_of_In. cbn [fst]. by rewrite (get_well_formed props k v).
Qed.

Lemma same_value_objects (props1 props2 : list (string * value)) :
  well_formed_object props1 -> well_formed_object props2 ->
  Object_keys props1 ≡ₚ Object_keys props2 ->
  (forall k, k ∈ Object_keys props1 -> same_value (get props1 k) (get props2 k)) ->
  same_value (JObj props1) (JObj props2).
Proof.
  intros Hwf1 Hwf2 Hkeys Hvalues.
  apply (same_object _ (map (fun q => (fst q, get props1 (fst q))) props2)); [done| |].
  - rewrite (props_as_map props1 Hwf1) at 1.
    rewrite <- (map_map fst (fun k => (k, get props1 k)) props2).
    by apply Permutation_map.
  - apply Forall2_fmap_l, Forall_Forall2_diag, Forall_forall.
    intros [k v] Hin. cbn [fst snd]. split; [done|].
    rewrite <- (get_well_formed props2 k v Hwf2 Hin). apply Hvalues.
    rewrite Hkeys. apply list_elem_of_fmap. by exists (k, v).
Qed.

(** Every JSON value can be read back from its canonical text. *)
Lemma canonical_unique (v1 : value) : is_json v1 = true -> readable v1.
Proof.
  induction v1 as [| |b1|n1|s1|source|items1 IH|props1 IH] using value_ind';
    intros Hv1 v2 r1 r2 Hv2 Hr1 Hr2 Heq; try discriminate Hv1;
    pose proof (canonical_kind_eq _ _ _ _ Hv1 Hv2 Heq) as Hkind.
  - destruct v2 as [| |[]| | | | |]; try discriminate Hkind.
    apply (String.app_inj "null") in Heq as ->. split; [constructor|done].
  - destruct b1, v2 as [| |[]| | | | |]; try discriminate Hkind.
    + apply (String.app_inj "true") in Heq as ->. split; [constructor|done].
    + apply (String.app_inj "false") in Heq as ->. split; [constructor|done].
  - destruct v2 as [| |[]|n2| | | |]; try discriminate Hkind.
    change (JSON_number n1 +:+ r1 = JSON_number n2 +:+ r2) in Heq.
    destruct (JSON_number_unique _ _ _ _ Hv1 Hv2 Hr1 Hr2 Heq) as [-> ->].
    split; [constructor|done].
  - destruct v2 as [| |[]| |s2| | |]; try discriminate Hkind.
    change (QuoteJSONString s1 +:+ r1 = QuoteJSONString s2 +:+ r2) in Heq.
    destruct (QuoteJSONString_unique _ _ _ _ Heq) as [-> ->]. split; [constructor|done].
  - destruct v2 as [| |[]| | | |items2|]; try discriminate Hkind.
    rewrite !canonical_array, !append_cons, !append_assoc, !append_cons in Heq.
    injection Heq as Heq.
    apply is_json_array in Hv1, Hv2.
    destruct (items_unique items1 IH Hv1 items2 r1 r2 Hv2 Heq) as [Hitems ->].
    split; [by constructor|done].
  - destruct v2 as [| |[]| | | | |props2]; try discriminate Hkind.
    apply is_json_object in Hv1 as [Hwf1 Hjson1], Hv2 as [Hwf2 Hjson2].
    rewrite !canonical_object, !append_cons, !append_assoc, !append_cons in Heq.
    injection Heq as Heq. rewrite (parts_json props1), (parts_json props2) in Heq by done.
    apply members_unique in Heq as (Hkeys & Hvalues & Hrest).
    + change (r1 = r2) in Hrest. split; [|done]. apply same_value_objects; [done|done| |].
      * by rewrite <- (sort_Permutation (Object_keys props1)), Hkeys, sort_Permutation.
      * intros k Hk. apply Hvalues. by rewrite sort_Permutation.
    + intros k Hk. rewrite sort_Permutation in Hk.
      split; [by apply is_json_get|].
      rewrite Forall_forall in IH. rewrite Forall_forall in Hjson1.
      pose proof (elem_of_get props1 k Hk) as Hin.
      exact (IH _ Hin (Hjson1 _ Hin)).
    + intros k Hk. rewrite sort_Permutation in Hk. by apply is_json_get.
Qed.

(** Two JSON values with the same canonical form are the same value up to
    the order of the properties of their objects. *)
Lemma stableStringify_inj (v1 v2 : value) :
  is_json v1 = true -> is_json v2 = true ->
  IdentityManager.stableStringify v1 = IdentityManager.stableStringify v2 ->
  same_value v1 v2.
Proof.
  intros Hv1 Hv2 Heq.
  apply (canonical_unique v1 Hv1 v2 "" "" Hv2 eq_refl eq_refl).
  unfold canonical. by rewrite Heq.
Qed.

(** *** Fields of objects *)

Lemma same_value_get (props1 props2 : list (string * value)) (key : string) :
  same_value (JObj props1) (JObj props2) ->
  same_value (get props1 key) (get props2 key).
Proof.
  inversion 1 as [|?|? reordered ? Hwf Hperm Hall]; subst; [constructor|].
  rewrite (get_Permutation props1 reordered key Hwf Hperm).
  assert (Hwf' : NoDup (Object_keys reordered)).
  { unfold Object_keys. by rewrite <- Hperm. }
  clear Hperm Hwf H. induction Hall as [|[k1 v1] [k2 v2] l1 l2 [Hk Hv] Hall IH]; [constructor|].
  cbn in Hk, Hv. subst k2. cbn [get]. cbn [Object_keys map fst] in Hwf'.
  apply NoDup_cons in Hwf' as [_ Hwf'].
  destruct (String.eqb k1 key); [done|]. by apply IH.
Qed.

(** *** Assignments to a property *)

Lemma set_property_keys (props : list (string * value)) (name : string) (v : value) :
  Object_keys (set_property props name v) = Object_keys props.
Proof.
  induction props as [|[k old] props IH]; [done|]. cbn [set_property].
  destruct (String.eqb k name); [done|]. cbn [Object_keys map fst]. f_equal. exact IH.
Qed.

Lemma get_set_property (props : list (string * value)) (name : string) (v : value) :
  name ∈ Object_keys props -> get (set_property props name v) name = v.
Proof.
  induction props as [|[k old] props IH]; cbn [Object_keys map fst set_property].
  - by intros ?%elem_of_nil.
  - destruct (String.eqb_spec k name) as [->|Hne]; cbn [get].
    + by rewrite String.eqb_refl.
    + intros [->|Hin]%elem_of_cons; [done|].
      destruct (String.eqb_spec k name); [done|]. by apply IH.
Qed.

Lemma get_set_property_ne (props : list (string * value)) (name key : string) (v : value) :
  key <> name -> get (set_property props name v) key = get props key.
Proof.
  intros Hne. induction props as [|[k old] props IH]; [done|]. cbn [set_property].
  destruct (String.eqb_spec k name) as [->|Hk]; cbn [get].
  - by destruct (String.eqb_spec name key).
  - by rewrite IH.
Qed.

Lemma is_json_set_property (props : list (string * value)) (name : string) (v : value) :
  is_json (JObj props) = true -> is_json v = true ->
  is_json (JObj (set_property props name v)) = true.
Proof.
  rewrite !is_json_object. unfold well_formed_object. rewrite set_property_keys.
  intros [Hwf Hprops] Hv. split; [done|]. clear Hwf.
  induction Hprops as [|[k old] props Hold Hprops IH]; [done|]. cbn [set_property].
  destruct (String.eqb k name); constructor; done.
Qed.

Lemma without_signature_set_property (props : list (string * value)) (name : string)
    (v : value) :
  name <> "signature" ->
  Requester.without_signature (set_property props name v)
  = set_property (Requester.without_signature props) name v.
Proof.
  intros Hne. unfold Requester.without_signature.
  induction props as [|[k old] props IH]; [done|]. cbn [set_property].
  destruct (String.eqb_spec k name) as [->|Hk]; cbn [List.filter fst].
  - destruct (String.eqb_spec name "signature"); [done|]. cbn [negb set_property].
    by rewrite String.eqb_refl.
  - destruct (String.eqb_spec k "signature"); cbn [negb set_property]; [done|].
    destruct (String.eqb_spec k name); [done|]. by rewrite IH.
Qed.

Lemma get_without_signature (props : list (string * value)) (name : string) :
  name <> "signature" -> get (Requester.without_signature props) name = get props name.
Proof.
  intros Hne. unfold Requester.without_signature.
  induction props as [|[k old] props IH]; [done|]. cbn [List.filter fst get].
  destruct (String.eqb_spec k "signature") as [->|Hk]; cbn [negb get].
  - by destruct (String.eqb_spec "signature" name).
  - by rewrite IH.
Qed.

Lemma elem_of_without_signature (props : list (string * value)) (name : string) :
  name ∈ Object_keys props -> name <> "signature" ->
  name ∈ Object_keys (Requester.without_signature props).
Proof.
  intros Hin Hne. unfold Requester.without_signature.
  induction props as [|[k old] props IH]; [done|].
  cbn [Object_keys map fst] in Hin. cbn [List.filter fst].
  destruct (String.eqb_spec k "signature") as [->|Hk]; cbn [negb].
  - apply elem_of_cons in Hin as [->|Hin]; [done|]. by apply IH.
  - cbn [Object_keys map fst]. apply elem_of_cons in Hin as [->|Hin]; [by left|].
    right. by apply IH.
Qed.

(** Assigning another JSON value to a property of a JSON object changes
    the canonical form of the object. *)
Lemma stableStringify_set_property (props : list (string * value)) (name : string)
    (v : value) :
  is_json (JObj props) = true -> is_json v = true ->
  name ∈ Object_keys props ->
  ~ same_value (get props name) v ->
  IdentityManager.stableStringify (JObj (set_property props name v))
  <> IdentityManager.stableStringify (JObj props).
Proof.
  intros Hprops Hv Hname Hother Heq. apply Hother.
  rewrite <- (get_set_property props name v Hname).
  apply same_value_get, stableStringify_inj; [done| |done].
  by apply is_json_set_property.
Qed.

(** ** Tampering *)

Section Tampering.
Context `{CryptoBackend}.

Lemma destructure_object (props : list (string * value)) :
  destructure (JObj props) = Returned (task_of props).
Proof. reflexivity. Qed.

(** A task whose signature was made for another text than the canonical
    form of its signed fields is rejected before any lookup. *)
Lemma executeTask_rejects_other_text (this : Executor.t) (now : Z) (signedTask : value)
    (task : Task) (privateKey : value) (s payload : string) :
  destructure signedTask = Returned task ->
  signature task = JStr s ->
  crypto_sign privateKey payload = Returned s ->
  unforgeable privateKey (publicKey task) ->
  IdentityManager.stableStringify (dataToVerify task) <> Some payload ->
  Executor.executeTask this now signedTask
  = (Executor._createSignedResult this now (taskId task) "failure" JNull (JStr AUTH_FAILED),
     []).
Proof.
  intros Htask Hsig Hsign Hunforgeable Hother.
  apply executeTask_auth_failed with (task := task); [done|].
  destruct (stableStringify_defined (dataToVerify task) eq_refl) as [payload' Hpayload'].
  rewrite (verify_canonical _ _ _ _ Hpayload'), Hsig.
  destruct (crypto_verify _ _ _) as [[|]|] eqn:Hverify; try done.
  exfalso. apply (Hunforgeable payload payload' s Hsign); [|done].
  intros ->. by apply Hother.
Qed.

Lemma createTask_signed (this : Requester.t) (uuid : string) (created : Z)
    (capabilityId payload : value) (props : list (string * value)) :
  Requester.createTask this uuid created capabilityId payload = Returned (JObj props) ->
  exists s text,
    props = [("taskId", JStr uuid);
             ("requesterId", JStr (IdentityManager.id (Requester.identity this)));
             ("capabilityId", capabilityId);
             ("payload", payload);
             ("timestamp", JNum (Int created));
             ("signature", JStr s);
             ("publicKey", IdentityManager.publicKey (Requester.identity this))]
    /\ IdentityManager.stableStringify (dataToVerify (task_of props)) = Some text
    /\ crypto_sign (IdentityManager.privateKey (Requester.identity this)) text = Returned s.
Proof.
  unfold Requester.createTask, IdentityManager.sign.
  match goal with
  | |- context [update (IdentityManager.stableStringify ?d)] =>
      destruct (stableStringify_defined d eq_refl) as [text Htext]; rewrite Htext
  end.
  cbn [update mbind outcome_bind].
  destruct (crypto_sign _ _) as [s|] eqn:Hsign; [|done].
  cbn [mbind outcome_bind mret outcome_ret]. intros [= <-].
  exists s, text. split; [done|]. split; [exact Htext|exact Hsign].
Qed.

(** C3, amended. Take a task that a requester with unforgeable signatures
    created and signed, with JSON data (null, booleans, finite numbers,
    strings, arrays and objects of such) for its capability id and payload,
    and assign to one of the signed fields [taskId], [requesterId],
    [capabilityId], [payload], [timestamp] another JSON value: one that is
    not the old value up to the order of object properties, at any depth of
    the payload. Then [executeTask] returns a signed failure result with
    the diagnostic [Invalid Task Signature: Auth Failed] and calls no
    handler. *)
Theorem executeTask_rejects_tampered_task (this : Executor.t) (now : Z)
    (requester : Requester.t) (uuid : string) (created : Z)
    (capabilityId payload : value) (props : list (string * value))
    (name : string) (v : value) :
  can_sign (Executor.identity this) ->
  unforgeable (IdentityManager.privateKey (Requester.identity requester))
              (IdentityManager.publicKey (Requester.identity requester)) ->
  Requester.createTask requester uuid created capabilityId payload = Returned (JObj props) ->
  is_json capabilityId = true ->
  is_json payload = true ->
  name ∈ SIGNED_FIELDS ->
  is_json v = true ->
  ~ same_value (get props name) v ->
  exists r,
    Executor.executeTask this now (JObj (set_property props name v)) = (Returned r, [])
    /\ failure_result this r AUTH_FAILED.
Proof.
  intros Hcan Hunforgeable (s & text & -> & Htext & Hsign)%createTask_signed
    Hid Hpayload Hname Hv Hother.
  set (data := [("taskId", JStr uuid);
                ("requesterId", JStr (IdentityManager.id (Requester.identity requester)));
                ("capabilityId", capabilityId);
                ("payload", payload);
                ("timestamp", JNum (Int created))]).
  change (JObj (set_property _ name v))
    with (JObj (set_property
                  (data ++ [("signature", JStr s);
                            ("publicKey",
                             IdentityManager.publicKey (Requester.identity requester))])
                  name v)).
  change (~ same_value
            (get (data ++ [("signature", JStr s);
                           ("publicKey",
                            IdentityManager.publicKey (Requester.identity requester))]) name)
            v) in Hother.
  set (task := data ++ [("signature", JStr s);
                        ("publicKey", IdentityManager.publicKey (Requester.identity requester))])
    in *.
  change (IdentityManager.stableStringify (JObj data) = Some text) in Htext.
  assert (Hdata : is_json (JObj data) = true).
  { apply is_json_object. split.
    - unfold well_formed_object. cbn.
      repeat (apply NoDup_cons; split; [intros Hin; key_not_in Hin|]). apply NoDup_nil_2.
    - repeat constructor; done. }
  assert (Hkept : signature (task_of (set_property task name v)) = JStr s
                  /\ publicKey (task_of (set_property task name v))
                     = IdentityManager.publicKey (Requester.identity requester)
                  /\ dataToVerify (task_of (set_property task name v))
                     = JObj (set_property data name v)
                  /\ get task name = get data name
                  /\ name ∈ Object_keys data).
  { unfold SIGNED_FIELDS in Hname. rewrite !elem_of_cons, elem_of_nil in Hname.
    destruct Hname as [->|[->|[->|[->|[->|[]]]]]];
      (split; [done|]); (split; [done|]); (split; [done|]); (split; [done|]);
      cbn; key_in. }
  destruct Hkept as (Hsig & Hkey & Hfields & Hget & Hin).
  rewrite Hget in Hother.
  rewrite (executeTask_rejects_other_text this now _ _ _ s text
             (destructure_object _) Hsig Hsign); [| by rewrite Hkey |].
  - match goal with
    | |- context [Executor._createSignedResult ?t ?n ?i ?st ?r ?e] =>
        destruct (createSignedResult_returns t n i st r e Hcan) as [r' Hr']
    end.
    exists r'. split; [by rewrite Hr'|]. by eapply createSignedResult_failure.
  - rewrite Hfields, <- Htext. by apply stableStringify_set_property.
Qed.
End Tampering.

(** ** CapabilityManager.registerCapability *)

(** C9, at the failing input. Two registrations under one name at one clock
    reading append two capabilities and change nothing else, as the claim
    says, but give both the same id. So registering the name [Add] twice at
    the clock reading 1000 yields the id [cap_add_1000] twice; the handler
    map then holds the second handler only, while validation finds the first
    schema and rejects a payload that the second schema accepts. *)
Theorem registerCapability_same_clock_same_id :
  (forall (this : CapabilityManager.t) (now : Z) (name : string)
          (input1 output1 input2 output2 : Schema) (constraints1 constraints2 : value),
     let '(after1, cap1) :=
       CapabilityManager.registerCapability this now name input1 output1 constraints1 in
     let '(after2, cap2) :=
       CapabilityManager.registerCapability after1 now name input2 output2 constraints2 in
     CapabilityManager.capabilities after2
     = CapabilityManager.capabilities this ++ [cap1; cap2]
     /\ CapabilityManager.identity after2 = CapabilityManager.identity this
     /\ CapabilityManager.id cap1 = CapabilityManager.id cap2)
  /\ map CapabilityManager.id
       (CapabilityManager.capabilities (Executor.capabilityManager twice_registered))
     = ["cap_add_1000"; "cap_add_1000"]
  /\ map CapabilityManager.name
       (CapabilityManager.capabilities (Executor.capabilityManager twice_registered))
     = ["Add"; "Add"]
  /\ Executor.handlers twice_registered !! "cap_add_1000" = Some failing_handler
  /\ size (Executor.handlers twice_registered) = 1%nat
  /\ CapabilityManager.validateCapability (Executor.capabilityManager twice_registered)
       (JStr "cap_add_1000") (JStr "any payload")
     = Thrown (Error "Expected object")
  /\ parse AnySchema (JStr "any payload") = Returned (JStr "any payload").
Proof.
  split.
  { intros. cbn. by rewrite <- app_assoc. }
  split; [done|]. split; [done|]. split; [|split; [|done]].
  - unfold twice_registered. cbn. apply lookup_insert_eq.
  - by vm_compute.
Qed.

(** ** The pipeline on the example executor *)

(** C1, at the failing input. [validateCapability] returns the parsed
    payload, as its documentation says, and [executeTask] drops it: for a
    payload with a field the schema strips, the task passes the three
    gates, validation returns the payload without [extra], and the handler
    is called with the payload that has it, not with the validated one. *)
Theorem handler_receives_unknown_field :
  let task := task_of task_with_extra_field in
  let validated := JObj [("a", JNum (Int 50)); ("b", JNum (Int 75))] in
  IdentityManager.verify (H := example_backend) (dataToVerify task) (signature task)
    (publicKey task) = Returned true
  /\ (exists h, Executor.handlers_get example_executor (capabilityId task)
                = Some ("cap_mathadd_1000", h))
  /\ CapabilityManager.validateCapability (Executor.capabilityManager example_executor)
       (capabilityId task) (payload task) = Returned validated
  /\ snd (Executor.executeTask (H := example_backend) example_executor 2000
            (JObj task_with_extra_field))
     = [Call "cap_mathadd_1000"
          (JObj [("a", JNum (Int 50)); ("b", JNum (Int 75)); ("extra", JStr "x")])]
  /\ snd (Executor.executeTask (H := example_backend) example_executor 2000
            (JObj task_with_extra_field))
     <> [Call "cap_mathadd_1000" validated].
Proof.
  cbv zeta. split; [by vm_compute|]. split.
  - eexists. unfold example_executor. cbn. by rewrite lookup_insert_eq.
  - split; [by vm_compute|]. split; [by vm_compute|]. by vm_compute.
Qed.

(** The C7 theorem at a task whose payload lacks the field [b]. *)
Lemma executeTask_schema_validation_failed_witness :
  exists r,
    Executor.executeTask (H := example_backend) example_executor 2000
      (JObj task_with_missing_field) = (Returned r, [])
    /\ failure_result (H := example_backend) example_executor r
         "Schema Validation Failed: Expected number".
Proof.
  apply (executeTask_schema_validation_failed (H := example_backend) example_executor 2000
           (JObj task_with_missing_field) (task_of task_with_missing_field)
           "cap_mathadd_1000" add_handler
           (snd (CapabilityManager.registerCapability
                   (CapabilityManager.new
                      (IdentityManager.getIdentity (example_identity "AlphaNode")))
                   1000 "MathAdd" AddSchema MathResultSchema (JObj [])))
           (Error "Expected number") "Expected number").
  - apply example_can_sign.
  - reflexivity.
  - vm_compute. reflexivity.
  - unfold example_executor. cbn. rewrite lookup_insert_eq. reflexivity.
  - vm_compute. reflexivity.
  - vm_compute. reflexivity.
  - reflexivity.
Defined.

Lemma example_schemas_throw_errors :
  forall cap,
    cap ∈ CapabilityManager.capabilities (Executor.capabilityManager example_executor) ->
    throws_errors (parse (CapabilityManager._inputSchemaZod cap)).
Proof.
  intros cap ->%list_elem_of_singleton input err. cbn.
  destruct input; try (intros [= <-]; by eexists).
  destruct (get props "a") as [| | |a| | | |]; try (intros [= <-]; by eexists).
  destruct (get props "b") as [| | |b| | | |]; try (intros [= <-]; by eexists).
  destruct (is_NaN a || is_NaN b); intros [= <-]; by eexists.
Qed.

Lemma example_handlers_throw_objects :
  forall key h,
    Executor.handlers example_executor !! key = Some h -> throws_objects h.
Proof.
  intros key h. unfold example_executor. cbn.
  intros [[_ <-]|[_ Hempty]]%lookup_insert_Some; [|by rewrite lookup_empty in Hempty].
  intros input err. unfold add_handler.
  destruct input; try (by intros [= <-]).
  - destruct (get props "a") as [| | |[]| | | |]; try done;
      destruct (get props "b") as [| | |[]| | | |]; done.
Qed.

(** The C4 theorem at the task with the unknown field: [executeTask] returns
    a result, and the result is signed. *)
Lemma executeTask_result_signed_witness :
  exists r calls,
    Executor.executeTask (H := example_backend) example_executor 2000
      (JObj task_with_extra_field) = (Returned r, calls)
    /\ signed_result (H := example_backend) example_executor r.
Proof.
  destruct (executeTask_result_signed (H := example_backend) example_executor 2000
              (JObj task_with_extra_field)) as [Hsigned Hreturns].
  destruct Hreturns as (r & calls & Hr).
  - discriminate.
  - discriminate.
  - apply example_can_sign.
  - by eexists.
  - apply example_schemas_throw_errors.
  - apply example_handlers_throw_objects.
  - exists r, calls. split; [exact Hr|]. exact (Hsigned r calls Hr).
Defined.

(** C3 as stated fails where the change leaves the canonical form as it
    was, which the omission of [undefined] and function properties makes
    possible by design: the requester signs the payload
    [{amount: 5, note: undefined}], the field [note] is removed from the
    payload, or set to a function, and the executor accepts the task and
    calls the handler with the changed payload. The backend is
    unforgeable. *)
Lemma tampered_undefined_field_accepted :
  let signed := JObj [("amount", JNum (Int 5)); ("note", JUndefined)] in
  let removed := JObj [("amount", JNum (Int 5))] in
  let replaced := JObj [("amount", JNum (Int 5)); ("note", JFun "() => 1")] in
  unforgeable (H := example_backend) (JObj [("secret", JStr "ClientOne")]) (JStr "ClientOne")
  /\ Requester.createTask (H := example_backend)
       {| Requester.identity := example_identity "ClientOne" |} "uuid-3" 1500
       (JStr "cap_echo_1000") signed
     = Returned (JObj task_with_undefined_field)
  /\ get task_with_undefined_field "payload" = signed
  /\ snd (Executor.executeTask (H := example_backend) echo_executor 2000
            (JObj (set_property task_with_undefined_field "payload" removed)))
     = [Call "cap_echo_1000" removed]
  /\ (exists props,
        fst (Executor.executeTask (H := example_backend) echo_executor 2000
               (JObj (set_property task_with_undefined_field "payload" removed)))
        = Returned (JObj props)
        /\ get props "status" = JStr "success"
        /\ get props "result" = removed)
  /\ snd (Executor.executeTask (H := example_backend) echo_executor 2000
            (JObj (set_property task_with_undefined_field "payload" replaced)))
     = [Call "cap_echo_1000" replaced]
  /\ (exists props,
        fst (Executor.executeTask (H := example_backend) echo_executor 2000
               (JObj (set_property task_with_undefined_field "payload" replaced)))
        = Returned (JObj props)
        /\ get props "status" = JStr "success").
Proof.
  cbv zeta. split; [apply example_unforgeable|].
  split; [by vm_compute|]. split; [by vm_compute|]. split; [by vm_compute|].
  split; [eexists; split; [vm_compute; reflexivity|]; by vm_compute|].
  split; [by vm_compute|]. eexists. split; [vm_compute; reflexivity|]. by vm_compute.
Qed.

(** The C3 theorem at the sum task with the field [b] of the payload changed
    from 75 to 76. *)
Lemma executeTask_rejects_tampered_task_witness :
  exists r,
    Executor.executeTask (H := example_backend) example_executor 2000
      (JObj (set_property task_with_extra_field "payload"
               (JObj [("a", JNum (Int 50)); ("b", JNum (Int 76)); ("extra", JStr "x")])))
    = (Returned r, [])
    /\ failure_result (H := example_backend) example_executor r AUTH_FAILED.
Proof.
  apply (executeTask_rejects_tampered_task (H := example_backend) example_executor 2000
           {| Requester.identity := example_identity "ClientOne" |} "uuid-1" 1500
           (JStr "cap_mathadd_1000")
           (JObj [("a", JNum (Int 50)); ("b", JNum (Int 75)); ("extra", JStr "x")])).
  - apply example_can_sign.
  - apply example_unforgeable.
  - vm_compute. reflexivity.
  - reflexivity.
  - vm_compute. reflexivity.
  - unfold SIGNED_FIELDS. key_in.
  - vm_compute. reflexivity.
  - intros Hsame%stableStringify_same_value. vm_compute in Hsame. discriminate Hsame.
Defined.

(** * More of the code *)

(** ** The shape of a signed result *)

Section ResultShape.
Context `{CryptoBackend}.

Lemma createSignedResult_success_shape (this : Executor.t) (now : Z)
    (taskId result error r : value) :
  Executor._createSignedResult this now taskId "success" result error = Returned r ->
  exists s,
    r = JObj [("taskId", taskId);
              ("executorId", JStr (IdentityManager.id (Executor.identity this)));
              ("status", JStr "success");
              ("timestamp", JNum (Int now));
              ("result", default_parameter JNull result);
              ("signature", JStr s)]
    /\ IdentityManager.sign (Executor.identity this)
         (JObj [("taskId", taskId);
                ("executorId", JStr (IdentityManager.id (Executor.identity this)));
                ("status", JStr "success");
                ("timestamp", JNum (Int now));
                ("result", default_parameter JNull result)]) = Returned s.
Proof.
  unfold Executor._createSignedResult. cbn [String.eqb Ascii.eqb Bool.eqb app].
  destruct (IdentityManager.sign _ _) as [s|] eqn:Hs;
    cbn [mbind outcome_bind mret outcome_ret app]; [|done].
  intros [= <-]. by exists s.
Qed.

Lemma createSignedResult_failure_shape (this : Executor.t) (now : Z)
    (taskId result error r : value) :
  Executor._createSignedResult this now taskId "failure" result error = Returned r ->
  exists s,
    r = JObj [("taskId", taskId);
              ("executorId", JStr (IdentityManager.id (Executor.identity this)));
              ("status", JStr "failure");
              ("timestamp", JNum (Int now));
              ("error", default_parameter JNull error);
              ("signature", JStr s)]
    /\ IdentityManager.sign (Executor.identity this)
         (JObj [("taskId", taskId);
                ("executorId", JStr (IdentityManager.id (Executor.identity this)));
                ("status", JStr "failure");
                ("timestamp", JNum (Int now));
                ("error", default_parameter JNull error)]) = Returned s.
Proof.
  unfold Executor._createSignedResult. cbn [String.eqb Ascii.eqb Bool.eqb app].
  destruct (IdentityManager.sign _ _) as [s|] eqn:Hs;
    cbn [mbind outcome_bind mret outcome_ret app]; [|done].
  intros [= <-]. by exists s.
Qed.

(** What [executeTask] returns was made for the task id of its argument. *)
Lemma executeTask_returned_for_task (this : Executor.t) (now : Z) (signedTask r : value)
    (calls : list call) :
  Executor.executeTask this now signedTask = (Returned r, calls) ->
  exists task status result error,
    destructure signedTask = Returned task
    /\ (status = "success" \/ status = "failure")
    /\ Executor._createSignedResult this now (taskId task) status result error = Returned r.
Proof.
  unfold Executor.executeTask.
  destruct (destructure signedTask) as [task|]; [|done].
  destruct (IdentityManager.verify _ _ _) as [[|]|]; [| |done].
  - destruct (Executor.handlers_get _ _) as [[key h]|].
    + destruct (CapabilityManager.validateCapability _ _ _) as [validated|e].
      * cbv zeta.
        destruct (h (payload task)) as [resultData|err]; cbn [mbind outcome_bind].
        -- destruct (Executor._createSignedResult this now (taskId task) "success"
                       resultData JUndefined) as [signedResult|err] eqn:Hsuccess.
           ++ intros [= <- _]. exists task. do 3 eexists. split; [done|].
              split; [|exact Hsuccess]; auto.
           ++ destruct (property err "message") as [message|]; cbn [mbind outcome_bind]; [|done].
              intros [= Hr _]. exists task. do 3 eexists. split; [done|].
              split; [|exact Hr]; auto.
        -- destruct (property err "message") as [message|]; cbn [mbind outcome_bind]; [|done].
           intros [= Hr _]. exists task. do 3 eexists. split; [done|]. split; [|exact Hr]; auto.
      * destruct (property e "message") as [message|]; cbn [mbind outcome_bind]; [|done].
        destruct (ToString message) as [text|]; cbn [mbind outcome_bind]; [|done].
        intros [= Hr _]. exists task. do 3 eexists. split; [done|]. split; [|exact Hr]; auto.
    + destruct (ToString (capabilityId task)) as [text|]; cbn [mbind outcome_bind]; [|done].
      intros [= Hr _]. exists task. do 3 eexists. split; [done|]. split; [|exact Hr]; auto.
  - intros [= Hr _]. exists task. do 3 eexists. split; [done|]. split; [|exact Hr]; auto.
Qed.

(** X5. A result that [executeTask] returns has exactly the fields [taskId],
    [executorId], [status], [timestamp], then [result] or [error], then
    [signature], in this order; it echoes the task id of the task, names
    the executor's id and carries the clock reading. *)
Theorem executeTask_result_fields (this : Executor.t) (now : Z) (signedTask r : value)
    (calls : list call) :
  Executor.executeTask this now signedTask = (Returned r, calls) ->
  exists props,
    r = JObj props
    /\ (Object_keys props
        = ["taskId"; "executorId"; "status"; "timestamp"; "result"; "signature"]
        \/ Object_keys props
           = ["taskId"; "executorId"; "status"; "timestamp"; "error"; "signature"])
    /\ get props "taskId" = get_field signedTask "taskId"
    /\ get props "executorId" = JStr (IdentityManager.id (Executor.identity this))
    /\ get props "timestamp" = JNum (Int now).
Proof.
  intros (task & status & result & error & Htask & Hstatus & Hr)%executeTask_returned_for_task.
  assert (HtaskId : taskId task = get_field signedTask "taskId").
  { destruct signedTask; cbn in Htask; try done; by injection Htask as <-. }
  destruct Hstatus as [-> | ->].
  - apply createSignedResult_success_shape in Hr as (s & -> & _).
    eexists. split; [done|]. rewrite <- HtaskId. cbn. auto.
  - apply createSignedResult_failure_shape in Hr as (s & -> & _).
    eexists. split; [done|]. rewrite <- HtaskId. cbn. auto.
Qed.
End ResultShape.

(** The X5 theorem at the task with the unknown field. *)
Lemma executeTask_result_fields_witness :
  exists props,
    fst (Executor.executeTask (H := example_backend) example_executor 2000
           (JObj task_with_extra_field)) = Returned (JObj props)
    /\ get props "taskId" = JStr "uuid-1"
    /\ get props "timestamp" = JNum (Int 2000).
Proof.
  destruct (Executor.executeTask (H := example_backend) example_executor 2000
              (JObj task_with_extra_field)) as [r calls] eqn:Hrun.
  assert (Hr : exists r', r = Returned r') by (vm_compute in Hrun; injection Hrun as <- _; eauto).
  destruct Hr as [r' ->].
  destruct (executeTask_result_fields (H := example_backend) example_executor 2000
              (JObj task_with_extra_field) r' calls Hrun)
    as (props & -> & _ & Hid & _ & Hnow).
  exists props. split; [reflexivity|]. split; [exact Hid | exact Hnow].
Defined.

(** ** The other ways out of the pipeline *)

Section Outcomes.
Context `{CryptoBackend}.

Lemma createSignedResult_failure_returns (this : Executor.t) (now : Z)
    (taskId error : value) :
  can_sign (Executor.identity this) ->
  exists props s,
    Executor._createSignedResult this now taskId "failure" JNull error
    = Returned (JObj props)
    /\ signed_result this (JObj props)
    /\ props = [("taskId", taskId);
                ("executorId", JStr (IdentityManager.id (Executor.identity this)));
                ("status", JStr "failure");
                ("timestamp", JNum (Int now));
                ("error", default_parameter JNull error);
                ("signature", JStr s)].
Proof.
  intros Hcan.
  destruct (createSignedResult_returns this now taskId "failure" JNull error Hcan) as [r Hr].
  pose proof (createSignedResult_signed _ _ _ _ _ _ _ (or_intror eq_refl) Hr) as Hsigned.
  destruct (createSignedResult_failure_shape _ _ _ _ _ _ Hr) as (s & -> & _).
  by eexists _, s.
Qed.

Lemma createSignedResult_success_returns (this : Executor.t) (now : Z)
    (taskId result : value) :
  can_sign (Executor.identity this) ->
  exists props s,
    Executor._createSignedResult this now taskId "success" result JUndefined
    = Returned (JObj props)
    /\ signed_result this (JObj props)
    /\ props = [("taskId", taskId);
                ("executorId", JStr (IdentityManager.id (Executor.identity this)));
                ("status", JStr "success");
                ("timestamp", JNum (Int now));
                ("result", default_parameter JNull result);
                ("signature", JStr s)].
Proof.
  intros Hcan.
  destruct (createSignedResult_returns this now taskId "success" result JUndefined Hcan)
    as [r Hr].
  pose proof (createSignedResult_signed _ _ _ _ _ _ _ (or_introl eq_refl) Hr) as Hsigned.
  destruct (createSignedResult_success_shape _ _ _ _ _ _ Hr) as (s & -> & _).
  by eexists _, s.
Qed.


(** X2. When the three gates pass and the handler rejects, the handler was
    called once with the payload. If what it rejected with is [undefined] or
    [null], the read of [err.message] in the [catch] block throws and
    [executeTask] throws with it. Otherwise, when the backend accepts the
    executor's key, the result is a signed failure whose [error] is the
    [message] of what the handler threw, or [null] when that has no
    message. *)
Theorem executeTask_handler_rejects (this : Executor.t) (now : Z)
    (signedTask : value) (task : Task) (key : string) (h : handler)
    (validated err : value) :
  can_sign (Executor.identity this) ->
  destructure signedTask = Returned task ->
  IdentityManager.verify (dataToVerify task) (signature task) (publicKey task)
  = Returned true ->
  Executor.handlers_get this (capabilityId task) = Some (key, h) ->
  CapabilityManager.validateCapability (Executor.capabilityManager this)
    (capabilityId task) (payload task) = Returned validated ->
  h (payload task) = Thrown err ->
  if is_nullish err
  then exists e,
         Executor.executeTask this now signedTask = (Thrown e, [Call key (payload task)])
  else exists props,
         Executor.executeTask this now signedTask
         = (Returned (JObj props), [Call key (payload task)])
         /\ signed_result this (JObj props)
         /\ get props "status" = JStr "failure"
         /\ get props "error" = (if is_undefined (get_field err "message") then JNull
                                 else get_field err "message")
         /\ "result" ∉ Object_keys props.
Proof.
  intros Hcan Htask Hverify Hget Hvalidate Hcall.
  rewrite (executeTask_handler_called this now signedTask task key h validated
             Htask Hverify Hget Hvalidate), Hcall.
  cbn [mbind outcome_bind].
  destruct (is_nullish err) eqn:Hnullish.
  { destruct err; try discriminate Hnullish; by eexists. }
  assert (Hmessage : property err "message" = Returned (get_field err "message")).
  { unfold get_field. destruct err; try discriminate Hnullish; reflexivity. }
  rewrite Hmessage. cbn [mbind outcome_bind].
  destruct (createSignedResult_failure_returns this now (taskId task)
              (get_field err "message") Hcan)
    as (props & s & -> & Hsigned & ->).
  eexists. split; [done|]. split; [done|]. cbn. split; [done|]. split; [done|].
  intros Hin. key_not_in Hin.
Qed.

(** X3. When the three gates pass and the handler resolves, the handler was
    called once with the payload, and the success result (with [null] for a
    handler value of [undefined]) is signed inside the [try] block. If the
    signing returns, [executeTask] returns the signed success. If the
    signing throws, the [catch] block answers as for a handler that
    rejected: with a failure result for the [message] of what was thrown.
    When the backend accepts the executor's key the signing returns. *)
Theorem executeTask_handler_resolves (this : Executor.t) (now : Z)
    (signedTask : value) (task : Task) (key : string) (h : handler)
    (validated resultData : value) :
  destructure signedTask = Returned task ->
  IdentityManager.verify (dataToVerify task) (signature task) (publicKey task)
  = Returned true ->
  Executor.handlers_get this (capabilityId task) = Some (key, h) ->
  CapabilityManager.validateCapability (Executor.capabilityManager this)
    (capabilityId task) (payload task) = Returned validated ->
  h (payload task) = Returned resultData ->
  let fields :=
    [("taskId", taskId task);
     ("executorId", JStr (IdentityManager.id (Executor.identity this)));
     ("status", JStr "success");
     ("timestamp", JNum (Int now));
     ("result", if is_undefined resultData then JNull else resultData)] in
  match IdentityManager.sign (Executor.identity this) (JObj fields) with
  | Returned s =>
      Executor.executeTask this now signedTask
      = (Returned (JObj (fields ++ [("signature", JStr s)])), [Call key (payload task)])
  | Thrown err =>
      Executor.executeTask this now signedTask
      = (message ← property err "message";
         Executor._createSignedResult this now (taskId task) "failure" JNull message,
         [Call key (payload task)])
  end
  /\ (can_sign (Executor.identity this) ->
      exists props,
        Executor.executeTask this now signedTask
        = (Returned (JObj props), [Call key (payload task)])
        /\ signed_result this (JObj props)
        /\ get props "status" = JStr "success"
        /\ get props "result" = (if is_undefined resultData then JNull else resultData)
        /\ "error" ∉ Object_keys props).
Proof.
  intros Htask Hverify Hget Hvalidate Hcall fields.
  rewrite (executeTask_handler_called this now signedTask task key h validated
             Htask Hverify Hget Hvalidate), Hcall.
  cbn [mbind outcome_bind]. split.
  - assert (Hsuccess :
              Executor._createSignedResult this now (taskId task) "success" resultData JUndefined
              = (s ← IdentityManager.sign (Executor.identity this) (JObj fields);
                 mret (JObj (fields ++ [("signature", JStr s)])))) by reflexivity.
    rewrite Hsuccess.
    by destruct (IdentityManager.sign (Executor.identity this) (JObj fields)).
  - intros Hcan.
    destruct (createSignedResult_success_returns this now (taskId task) resultData Hcan)
      as (props & s & -> & Hsigned & ->).
    eexists. split; [done|]. split; [done|]. cbn. split; [done|]. split; [done|].
    intros Hin. key_not_in Hin.
Qed.

(** X4. A handler is called only for a task that passed signature
    verification, whose capability id is the string the handler is
    registered under and whose payload passed validation; the argument is
    the payload of the task, and it is the only call. *)
Theorem executeTask_calls_only_after_gates (this : Executor.t) (now : Z)
    (signedTask : value) (key : string) (argument : value) :
  Call key argument ∈ snd (Executor.executeTask this now signedTask) ->
  exists task h validated,
    destructure signedTask = Returned task
    /\ IdentityManager.verify (dataToVerify task) (signature task) (publicKey task)
       = Returned true
    /\ capabilityId task = JStr key
    /\ Executor.handlers this !! key = Some h
    /\ CapabilityManager.validateCapability (Executor.capabilityManager this)
         (capabilityId task) (payload task) = Returned validated
    /\ argument = payload task
    /\ snd (Executor.executeTask this now signedTask) = [Call key argument].
Proof.
  unfold Executor.executeTask.
  destruct (destructure signedTask) as [task|]; [|by intros ?%elem_of_nil].
  destruct (IdentityManager.verify _ _ _) as [[|]|] eqn:Hverify;
    try (by intros ?%elem_of_nil).
  destruct (Executor.handlers_get _ _) as [[key' h]|] eqn:Hget;
    [|by intros ?%elem_of_nil].
  apply handlers_get_Some in Hget as [Hid Hh].
  destruct (CapabilityManager.validateCapability _ _ _) as [validated|e] eqn:Hvalidate;
    [|by intros ?%elem_of_nil].
  assert (Hcalls : Call key argument ∈ [Call key' (payload task)] ->
                   key = key' /\ argument = payload task).
  { intros Hin%list_elem_of_singleton. by injection Hin. }
  cbn [snd]. intros [-> ->]%Hcalls.
  exists task, h, validated; repeat split; done.
Qed.

(** X6. [executeTask(undefined)] and [executeTask(null)] throw at the
    destructuring and call nothing. Any other argument that is not an
    object, an array included, has none of the fields and is processed like
    the empty object. *)
Theorem executeTask_not_an_object (this : Executor.t) (now : Z) (signedTask : value) :
  is_object signedTask = false ->
  if is_nullish signedTask
  then exists err, Executor.executeTask this now signedTask = (Thrown err, [])
  else Executor.executeTask this now signedTask = Executor.executeTask this now (JObj []).
Proof. destruct signedTask; cbn; try done; eauto. Qed.
End Outcomes.


(** The X2 theorem at the executor whose handler for [cap_add_1000] always
    rejects. *)
Lemma executeTask_handler_rejects_witness :
  exists props,
    Executor.executeTask (H := example_backend) twice_registered 2000
      (JObj (example_task "ClientOne" "uuid-5" 1500 (JStr "cap_add_1000")
               (JObj [("a", JNum (Int 1)); ("b", JNum (Int 2))])))
    = (Returned (JObj props),
       [Call "cap_add_1000" (JObj [("a", JNum (Int 1)); ("b", JNum (Int 2))])])
    /\ get props "error" = JStr "not implemented".
Proof.
  destruct (executeTask_handler_rejects (H := example_backend) twice_registered 2000
              (JObj (example_task "ClientOne" "uuid-5" 1500 (JStr "cap_add_1000")
                       (JObj [("a", JNum (Int 1)); ("b", JNum (Int 2))])))
              (task_of (example_task "ClientOne" "uuid-5" 1500 (JStr "cap_add_1000")
                          (JObj [("a", JNum (Int 1)); ("b", JNum (Int 2))])))
              "cap_add_1000" failing_handler
              (JObj [("a", JNum (Int 1)); ("b", JNum (Int 2))])
              (Error "not implemented"))
    as (props & Hrun & _ & _ & Herror & _).
  - apply example_can_sign.
  - reflexivity.
  - vm_compute. reflexivity.
  - unfold twice_registered. cbn. rewrite lookup_insert_eq. reflexivity.
  - vm_compute. reflexivity.
  - reflexivity.
  - exists props. split; [exact Hrun | exact Herror].
Defined.

(** The X3 theorem at the task with the unknown field. *)
Lemma executeTask_handler_resolves_witness :
  exists props,
    Executor.executeTask (H := example_backend) example_executor 2000
      (JObj task_with_extra_field)
    = (Returned (JObj props),
       [Call "cap_mathadd_1000"
          (JObj [("a", JNum (Int 50)); ("b", JNum (Int 75)); ("extra", JStr "x")])])
    /\ get props "result" = JObj [("answer", JNum (Int 125))].
Proof.
  destruct (executeTask_handler_resolves (H := example_backend) example_executor 2000
              (JObj task_with_extra_field) (task_of task_with_extra_field)
              "cap_mathadd_1000" add_handler
              (JObj [("a", JNum (Int 50)); ("b", JNum (Int 75))])
              (JObj [("answer", JNum (Int 125))]))
    as [_ Hsuccess].
  - reflexivity.
  - vm_compute. reflexivity.
  - unfold example_executor. cbn. rewrite lookup_insert_eq. reflexivity.
  - vm_compute. reflexivity.
  - reflexivity.
  - destruct (Hsuccess (example_can_sign "AlphaNode")) as (props & Hrun & _ & _ & Hresult & _).
    exists props. split; [exact Hrun | exact Hresult].
Defined.

(** The X4 theorem at the call the task with the unknown field causes. *)
Lemma executeTask_calls_only_after_gates_witness :
  exists task,
    destructure (JObj task_with_extra_field) = Returned task
    /\ IdentityManager.verify (H := example_backend) (dataToVerify task) (signature task)
         (publicKey task) = Returned true
    /\ capabilityId task = JStr "cap_mathadd_1000".
Proof.
  destruct (executeTask_calls_only_after_gates (H := example_backend) example_executor 2000
              (JObj task_with_extra_field) "cap_mathadd_1000"
              (JObj [("a", JNum (Int 50)); ("b", JNum (Int 75)); ("extra", JStr "x")]))
    as (task & h & validated & Htask & Hverify & Hid & _).
  - vm_compute. apply list_elem_of_singleton. reflexivity.
  - exists task. split; [exact Htask|]. split; [exact Hverify | exact Hid].
Defined.

(** The X6 theorem at a task that is a string. *)
Lemma executeTask_not_an_object_witness :
  Executor.executeTask (H := example_backend) example_executor 2000 (JStr "task")
  = Executor.executeTask (H := example_backend) example_executor 2000 (JObj []).
Proof.
  apply (executeTask_not_an_object (H := example_backend) example_executor 2000 (JStr "task")).
  reflexivity.
Defined.

(** ** Signing, then verifying *)

Section SignThenVerify.
Context `{CryptoBackend}.

Lemma sign_returned (this : IdentityManager.t) (data : value) (s : string) :
  IdentityManager.sign this data = Returned s ->
  exists text,
    IdentityManager.stableStringify data = Some text
    /\ crypto_sign (IdentityManager.privateKey this) text = Returned s.
Proof.
  unfold IdentityManager.sign.
  destruct (IdentityManager.stableStringify data) as [text|]; [|done].
  cbn [update mbind outcome_bind]. eauto.
Qed.

Lemma sign_paired (this : IdentityManager.t) (data : value) :
  paired (IdentityManager.privateKey this) (IdentityManager.publicKey this) ->
  is_undefined data || is_function data = false ->
  exists s, IdentityManager.sign this data = Returned s.
Proof.
  intros Hpaired Hdata. destruct (stableStringify_defined data Hdata) as [text Htext].
  destruct (Hpaired text) as (s & Hs & _). exists s.
  unfold IdentityManager.sign. by rewrite Htext.
Qed.

(** What an identity signed verifies under its paired public key. *)
Lemma sign_then_verify (this : IdentityManager.t) (data : value) (s : string) :
  paired (IdentityManager.privateKey this) (IdentityManager.publicKey this) ->
  IdentityManager.sign this data = Returned s ->
  IdentityManager.verify data (JStr s) (IdentityManager.publicKey this) = Returned true.
Proof.
  intros Hpaired (text & Htext & Hs)%sign_returned.
  destruct (Hpaired text) as (s' & Hs' & Hverify).
  assert (s' = s) as -> by congruence.
  by rewrite (verify_canonical _ _ _ _ Htext), Hverify.
Qed.

(** What an identity signed does not verify for data with another
    canonical form. *)
Lemma sign_then_verify_other (this : IdentityManager.t) (data data' : value) (s : string) :
  unforgeable (IdentityManager.privateKey this) (IdentityManager.publicKey this) ->
  IdentityManager.sign this data = Returned s ->
  is_undefined data' || is_function data' = false ->
  IdentityManager.stableStringify data' <> IdentityManager.stableStringify data ->
  IdentityManager.verify data' (JStr s) (IdentityManager.publicKey this) = Returned false.
Proof.
  intros Hunforgeable (text & Htext & Hs)%sign_returned Hdata' Hother.
  destruct (stableStringify_defined data' Hdata') as [text' Htext'].
  rewrite (verify_canonical _ _ _ _ Htext').
  destruct (crypto_verify _ _ _) as [[|]|] eqn:Hverify; try done.
  exfalso. apply (Hunforgeable text text' s Hs); [|done].
  intros ->. apply Hother. by rewrite Htext, Htext'.
Qed.

(** X13. Under a key pair that is paired and unforgeable, [verify] of data
    that has a canonical form (plain data other than [undefined] and
    functions) against the signature of other data returns [true] exactly
    when the two have the same canonical form: a mismatch gives [false],
    not an exception. *)
Theorem verify_signature_of_other_data (this : IdentityManager.t) (data data' : value)
    (s : string) :
  paired (IdentityManager.privateKey this) (IdentityManager.publicKey this) ->
  unforgeable (IdentityManager.privateKey this) (IdentityManager.publicKey this) ->
  IdentityManager.sign this data = Returned s ->
  is_undefined data' || is_function data' = false ->
  IdentityManager.verify data' (JStr s) (IdentityManager.publicKey this)
  = Returned (bool_decide (IdentityManager.stableStringify data'
                           = IdentityManager.stableStringify data)).
Proof.
  intros Hpaired Hunforgeable Hs Hdata'. case_bool_decide as Hsame.
  - destruct (sign_returned _ _ _ Hs) as (text & Htext & Hsign).
    destruct (Hpaired text) as (s' & Hs' & Hverify).
    assert (s' = s) as -> by congruence.
    rewrite Htext in Hsame. by rewrite (verify_canonical _ _ _ _ Hsame), Hverify.
  - by apply (sign_then_verify_other this data data').
Qed.

(** X12. Signing and verifying see a value through its canonical form only:
    two values that differ in the order of properties, at any depth, get
    the same signature and the same verdict for every signature and key. *)
Theorem sign_verify_same_value (this : IdentityManager.t) (data1 data2 : value)
    (signature publicKey : value) :
  same_value data1 data2 ->
  IdentityManager.sign this data1 = IdentityManager.sign this data2
  /\ IdentityManager.verify data1 signature publicKey
     = IdentityManager.verify data2 signature publicKey.
Proof.
  intros Hsame%stableStringify_same_value.
  unfold IdentityManager.sign, IdentityManager.verify. by rewrite Hsame.
Qed.
End SignThenVerify.

(** The X13 theorem at [{a: 1}] signed and [{a: 2}] verified. *)
Lemma verify_signature_of_other_data_witness :
  IdentityManager.verify (H := example_backend) (JObj [("a", JNum (Int 2))])
    (JStr ("AlphaNode signed {" +:+ QuoteJSONString "a" +:+ ":1}")) (JStr "AlphaNode")
  = Returned false.
Proof.
  pose proof (verify_signature_of_other_data (H := example_backend)
                (example_identity "AlphaNode")
                (JObj [("a", JNum (Int 1))]) (JObj [("a", JNum (Int 2))])
                ("AlphaNode signed {" +:+ QuoteJSONString "a" +:+ ":1}")
                (example_paired "AlphaNode") (example_unforgeable "AlphaNode")
                eq_refl eq_refl) as Hverify.
  cbn [IdentityManager.publicKey example_identity] in Hverify. rewrite Hverify.
  case_bool_decide as Hsame; [|reflexivity]. vm_compute in Hsame. discriminate Hsame.
Defined.

(** The X12 theorem at [{a: 1, b: 2}] and [{b: 2, a: 1}]. *)
Lemma sign_verify_same_value_witness :
  IdentityManager.sign (H := example_backend) (example_identity "AlphaNode")
    (JObj [("a", JNum (Int 1)); ("b", JNum (Int 2))])
  = IdentityManager.sign (H := example_backend) (example_identity "AlphaNode")
      (JObj [("b", JNum (Int 2)); ("a", JNum (Int 1))]).
Proof.
  apply (sign_verify_same_value (H := example_backend) (example_identity "AlphaNode")
           (JObj [("a", JNum (Int 1)); ("b", JNum (Int 2))])
           (JObj [("b", JNum (Int 2)); ("a", JNum (Int 1))]) JNull JNull).
  apply (same_object _ [("b", JNum (Int 2)); ("a", JNum (Int 1))]).
  - by apply well_formed_two.
  - apply perm_swap.
  - repeat constructor.
Defined.

(** ** Requester.createTask and Requester.verifyResult *)

Section RequesterSide.
Context `{CryptoBackend}.

(** X7. A requester whose keys are paired gets a task from [createTask] for
    every capability id and payload that are plain data, [undefined]
    included; the task carries both unchanged, the requester's id and
    public key, and passes the signature check of [executeTask]. *)
Theorem createTask_authenticates (this : Requester.t) (uuid : string) (now : Z)
    (target input : value) :
  paired (IdentityManager.privateKey (Requester.identity this))
         (IdentityManager.publicKey (Requester.identity this)) ->
  exists props task,
    Requester.createTask this uuid now target input = Returned (JObj props)
    /\ destructure (JObj props) = Returned task
    /\ taskId task = JStr uuid
    /\ requesterId task = JStr (IdentityManager.id (Requester.identity this))
    /\ capabilityId task = target
    /\ payload task = input
    /\ timestamp task = JNum (Int now)
    /\ publicKey task = IdentityManager.publicKey (Requester.identity this)
    /\ IdentityManager.verify (dataToVerify task) (signature task) (publicKey task)
       = Returned true.
Proof.
  intros Hpaired. unfold Requester.createTask.
  match goal with
  | |- context [IdentityManager.sign ?i ?d] =>
      destruct (sign_paired i d Hpaired eq_refl) as [s Hs]; rewrite Hs
  end.
  cbn [mbind outcome_bind mret outcome_ret app].
  do 2 eexists. split; [reflexivity|]. split; [reflexivity|].
  cbn. repeat split; try done.
  exact (sign_then_verify _ _ _ Hpaired Hs).
Qed.

(** X8. Every result that an executor with paired keys returns from
    [executeTask], success or failure, passes [verifyResult] under the
    executor's public key. *)
Theorem verifyResult_accepts_executeTask (this : Executor.t) (now : Z)
    (signedTask : value) (r : value) (calls : list call) :
  paired (IdentityManager.privateKey (Executor.identity this))
         (IdentityManager.publicKey (Executor.identity this)) ->
  Executor.executeTask this now signedTask = (Returned r, calls) ->
  exists props,
    r = JObj props
    /\ Requester.verifyResult props (IdentityManager.publicKey (Executor.identity this))
       = Returned true.
Proof.
  intros Hpaired (task & status & result & error & _ & Hstatus & Hr)%executeTask_returned_for_task.
  destruct Hstatus as [-> | ->].
  - apply createSignedResult_success_shape in Hr as (s & -> & Hs).
    eexists. split; [reflexivity|]. exact (sign_then_verify _ _ _ Hpaired Hs).
  - apply createSignedResult_failure_shape in Hr as (s & -> & Hs).
    eexists. split; [reflexivity|]. exact (sign_then_verify _ _ _ Hpaired Hs).
Qed.

(** X9. [verifyResult] returns a boolean for every result object of plain
    data and every key: such an object always has a canonical form, and
    what the backend throws is answered with [false]. For a result that an executor with unforgeable
    keys returned and whose signed fields are JSON data, it is [false] once
    one field other than [signature] is assigned another JSON value, one
    that is not the old value up to the order of object properties, while
    the signature is kept. *)
Theorem verifyResult_rejects_altered_result (this : Executor.t) (now : Z)
    (signedTask : value) (props : list (string * value)) (calls : list call)
    (name : string) (v : value) :
  (forall (signedResult : list (string * value)) (key : value),
     exists b, Requester.verifyResult signedResult key = Returned b)
  /\ (unforgeable (IdentityManager.privateKey (Executor.identity this))
                  (IdentityManager.publicKey (Executor.identity this)) ->
      Executor.executeTask this now signedTask = (Returned (JObj props), calls) ->
      is_json (JObj (Requester.without_signature props)) = true ->
      name ∈ Object_keys props ->
      name <> "signature" ->
      is_json v = true ->
      ~ same_value (get props name) v ->
      Requester.verifyResult (set_property props name v)
        (IdentityManager.publicKey (Executor.identity this))
      = Returned false).
Proof.
  split; [intros; apply verify_object|].
  intros Hunforgeable
    (task & status & result & error & _ & Hstatus & Hr)%executeTask_returned_for_task
    Hjson Hname Hne Hv Hother.
  unfold Requester.verifyResult.
  rewrite (without_signature_set_property props name v Hne).
  rewrite (get_set_property_ne props name "signature" v) by congruence.
  assert (Hsigned : exists s,
             get props "signature" = JStr s
             /\ IdentityManager.sign (Executor.identity this)
                  (JObj (Requester.without_signature props)) = Returned s).
  { destruct Hstatus as [-> | ->].
    - apply createSignedResult_success_shape in Hr as (s & [= ->] & Hs). by exists s.
    - apply createSignedResult_failure_shape in Hr as (s & [= ->] & Hs). by exists s. }
  destruct Hsigned as (s & -> & Hs).
  apply (sign_then_verify_other _ _ _ s Hunforgeable Hs); [done|].
  apply stableStringify_set_property; [done|done| |].
  - by apply elem_of_without_signature.
  - by rewrite get_without_signature.
Qed.

(** X10. End to end, on plain data: a requester and an executor with paired
    keys (so that both can sign), a capability with a handler, a payload
    the schema accepts and a handler that resolves. The task the requester
    creates makes the executor call the handler once with that payload and
    return a success result with the handler's value, which the requester's
    [verifyResult] accepts under the executor's public key. *)
Theorem createTask_executeTask_verifyResult (requester : Requester.t)
    (this : Executor.t) (uuid key : string) (created now : Z) (h : handler)
    (input validated resultData : value) :
  paired (IdentityManager.privateKey (Requester.identity requester))
         (IdentityManager.publicKey (Requester.identity requester)) ->
  paired (IdentityManager.privateKey (Executor.identity this))
         (IdentityManager.publicKey (Executor.identity this)) ->
  Executor.handlers this !! key = Some h ->
  CapabilityManager.validateCapability (Executor.capabilityManager this) (JStr key) input
  = Returned validated ->
  h input = Returned resultData ->
  exists signedTask props,
    Requester.createTask requester uuid created (JStr key) input = Returned signedTask
    /\ Executor.executeTask this now signedTask
       = (Returned (JObj props), [Call key input])
    /\ get props "status" = JStr "success"
    /\ get props "result" = (if is_undefined resultData then JNull else resultData)
    /\ get props "taskId" = JStr uuid
    /\ Requester.verifyResult props (IdentityManager.publicKey (Executor.identity this))
       = Returned true.
Proof.
  intros Hrequester Hexecutor Hh Hvalidate Hcall. unfold Requester.createTask.
  match goal with
  | |- context [IdentityManager.sign ?i ?d] =>
      destruct (sign_paired i d Hrequester eq_refl) as [s Hs]; rewrite Hs
  end.
  cbn [mbind outcome_bind mret outcome_ret app].
  pose proof (sign_then_verify _ _ _ Hrequester Hs) as Hverify.
  pose (task := [("taskId", JStr uuid);
                 ("requesterId", JStr (IdentityManager.id (Requester.identity requester)));
                 ("capabilityId", JStr key);
                 ("payload", input);
                 ("timestamp", JNum (Int created));
                 ("signature", JStr s);
                 ("publicKey", IdentityManager.publicKey (Requester.identity requester))]).
  exists (JObj task).
  pose proof (executeTask_handler_called this now (JObj task) (task_of task) key h
                validated eq_refl Hverify) as Hrun.
  cbn [task task_of get String.eqb Ascii.eqb Bool.eqb capabilityId payload
       Executor.handlers_get taskId] in Hrun.
  rewrite Hh in Hrun. specialize (Hrun eq_refl Hvalidate). rewrite Hcall in Hrun.
  cbn [mbind outcome_bind] in Hrun.
  destruct (sign_paired (Executor.identity this)
              (JObj [("taskId", JStr uuid);
                     ("executorId", JStr (IdentityManager.id (Executor.identity this)));
                     ("status", JStr "success");
                     ("timestamp", JNum (Int now));
                     ("result", default_parameter JNull resultData)])
              Hexecutor eq_refl) as [s' Hs'].
  assert (Hr : Executor._createSignedResult this now (JStr uuid) "success" resultData
                 JUndefined
               = Returned (JObj [("taskId", JStr uuid);
                                 ("executorId",
                                  JStr (IdentityManager.id (Executor.identity this)));
                                 ("status", JStr "success");
                                 ("timestamp", JNum (Int now));
                                 ("result", default_parameter JNull resultData);
                                 ("signature", JStr s')])).
  { unfold Executor._createSignedResult. cbn [String.eqb Ascii.eqb Bool.eqb app].
    by rewrite Hs'. }
  rewrite Hr in Hrun. eexists. split; [reflexivity|]. split; [exact Hrun|].
  cbn. repeat split; try done. exact (sign_then_verify _ _ _ Hexecutor Hs').
Qed.
End RequesterSide.

(** The X7 theorem at the requester [ClientOne] and the payload
    [undefined]. *)
Lemma createTask_authenticates_witness :
  exists props task,
    Requester.createTask (H := example_backend)
      {| Requester.identity := example_identity "ClientOne" |}
      "uuid-6" 1500 (JStr "cap_echo_1000") JUndefined = Returned (JObj props)
    /\ destructure (JObj props) = Returned task
    /\ IdentityManager.verify (H := example_backend) (dataToVerify task) (signature task)
         (publicKey task) = Returned true.
Proof.
  destruct (createTask_authenticates (H := example_backend)
              {| Requester.identity := example_identity "ClientOne" |}
              "uuid-6" 1500 (JStr "cap_echo_1000") JUndefined (example_paired "ClientOne"))
    as (props & task & Hcreate & Htask & _ & _ & _ & _ & _ & _ & Hverify).
  exists props, task. split; [exact Hcreate|]. split; [exact Htask | exact Hverify].
Defined.

(** The X8 theorem at the rejection of a task nobody signed. *)
Lemma verifyResult_accepts_executeTask_witness :
  exists props,
    fst (Executor.executeTask (H := example_backend) example_executor 2000 (JObj []))
    = Returned (JObj props)
    /\ get props "error" = JStr AUTH_FAILED
    /\ Requester.verifyResult (H := example_backend) props (JStr "AlphaNode")
       = Returned true.
Proof.
  destruct (Executor.executeTask (H := example_backend) example_executor 2000 (JObj []))
    as [r calls] eqn:Hrun.
  assert (Hr : exists props, r = Returned (JObj props) /\ get props "error" = JStr AUTH_FAILED).
  { vm_compute in Hrun. injection Hrun as <- _. eexists. split; reflexivity. }
  destruct Hr as (props & -> & Herror).
  destruct (verifyResult_accepts_executeTask (H := example_backend) example_executor 2000
              (JObj []) (JObj props) calls (example_paired "AlphaNode") Hrun)
    as (props' & [= <-] & Hverify).
  exists props. split; [reflexivity|]. split; [exact Herror | exact Hverify].
Defined.

(** The X9 theorem at the result for the task with the unknown field, with
    the sum in its [result] changed from 125 to 126. *)
Lemma verifyResult_rejects_altered_result_witness :
  exists props,
    fst (Executor.executeTask (H := example_backend) example_executor 2000
           (JObj task_with_extra_field))
    = Returned (JObj props)
    /\ get props "result" = JObj [("answer", JNum (Int 125))]
    /\ Requester.verifyResult (H := example_backend)
         (set_property props "result" (JObj [("answer", JNum (Int 126))]))
         (JStr "AlphaNode")
       = Returned false.
Proof.
  destruct (Executor.executeTask (H := example_backend) example_executor 2000
              (JObj task_with_extra_field)) as [r calls] eqn:Hrun.
  assert (Hr : exists props,
             r = Returned (JObj props)
             /\ is_json (JObj (Requester.without_signature props)) = true
             /\ "result" ∈ Object_keys props
             /\ get props "result" = JObj [("answer", JNum (Int 125))]).
  { vm_compute in Hrun. injection Hrun as <- _. eexists. split; [reflexivity|].
    split; [vm_compute; reflexivity|]. split; [cbn; key_in | reflexivity]. }
  destruct Hr as (props & -> & Hjson & Hin & Hresult).
  exists props. split; [reflexivity|]. split; [exact Hresult|].
  apply (proj2 (verifyResult_rejects_altered_result (H := example_backend) example_executor
                  2000 (JObj task_with_extra_field) props calls "result"
                  (JObj [("answer", JNum (Int 126))]))
           (example_unforgeable "AlphaNode") Hrun Hjson Hin).
  - discriminate.
  - vm_compute. reflexivity.
  - rewrite Hresult. intros Hsame%stableStringify_same_value.
    vm_compute in Hsame. discriminate Hsame.
Defined.

(** The X10 theorem at the sum of 2 and 3 on the example executor. *)
Lemma createTask_executeTask_verifyResult_witness :
  exists signedTask props,
    Requester.createTask (H := example_backend)
      {| Requester.identity := example_identity "ClientOne" |} "uuid-7" 1500
      (JStr "cap_mathadd_1000") (JObj [("a", JNum (Int 2)); ("b", JNum (Int 3))])
    = Returned signedTask
    /\ Executor.executeTask (H := example_backend) example_executor 2000 signedTask
       = (Returned (JObj props),
          [Call "cap_mathadd_1000" (JObj [("a", JNum (Int 2)); ("b", JNum (Int 3))])])
    /\ get props "result" = JObj [("answer", JNum (Int 5))]
    /\ Requester.verifyResult (H := example_backend) props (JStr "AlphaNode")
       = Returned true.
Proof.
  destruct (createTask_executeTask_verifyResult (H := example_backend)
              {| Requester.identity := example_identity "ClientOne" |} example_executor
              "uuid-7" "cap_mathadd_1000" 1500 2000 add_handler
              (JObj [("a", JNum (Int 2)); ("b", JNum (Int 3))])
              (JObj [("a", JNum (Int 2)); ("b", JNum (Int 3))])
              (JObj [("answer", JNum (Int 5))]))
    as (signedTask & props & Hcreate & Hrun & _ & Hresult & _ & Hverify).
  - apply example_paired.
  - apply example_paired.
  - unfold example_executor. cbn. apply lookup_insert_eq.
  - vm_compute. reflexivity.
  - reflexivity.
  - exists signedTask, props. split; [exact Hcreate|]. split; [exact Hrun|].
    split; [exact Hresult | exact Hverify].
Defined.

(** ** Function-valued properties *)

Lemma parts_insert_omitted (props1 props2 : list (string * value)) (k : string) (v : value) :
  is_undefined v || is_function v = true ->
  k ∉ Object_keys (props1 ++ props2) ->
  parts (props1 ++ (k, v) :: props2) = parts (props1 ++ props2).
Proof.
  intros Hv Hk. unfold parts. rewrite Object_keys_insert.
  assert (Hk' : k ∉ Object_keys props1 ++ Object_keys props2)
    by (by rewrite <- Object_keys_app).
  rewrite (flat_map_filter_nil _ k).
  - rewrite sort_without, <- Object_keys_app by done.
    apply callback_insert_other. by rewrite sort_Permutation.
  - unfold callback. rewrite get_insert_fresh.
    + by destruct (is_undefined v), (is_function v).
    + intros Hin. apply Hk'. apply elem_of_app. by left.
Qed.

(** X11. In an object, a property whose value is a function is left out of
    the canonical form, wherever the property stands: the object signs and
    verifies like the object without it. *)
Theorem stableStringify_function_property_omitted
    (props1 props2 : list (string * value)) (k source : string) :
  k ∉ Object_keys (props1 ++ props2) ->
  IdentityManager.stableStringify (JObj (props1 ++ (k, JFun source) :: props2))
  = IdentityManager.stableStringify (JObj (props1 ++ props2)).
Proof.
  intros Hk. rewrite !stableStringify_object. by rewrite parts_insert_omitted.
Qed.

(** The X11 theorem at [{a: 1, f: function}]. *)
Lemma stableStringify_function_property_omitted_witness :
  IdentityManager.stableStringify
    (JObj [("a", JNum (Int 1)); ("f", JFun "() => 1")])
  = IdentityManager.stableStringify (JObj [("a", JNum (Int 1))]).
Proof.
  apply (stableStringify_function_property_omitted [("a", JNum (Int 1))] [] "f" "() => 1").
  by intros ?%list_elem_of_singleton.
Defined.

(** ** The capability registry *)

Lemma find_capability_first (this : CapabilityManager.t)
    (before after : list CapabilityManager.Capability) (cap : CapabilityManager.Capability) :
  CapabilityManager.capabilities this = before ++ cap :: after ->
  CapabilityManager.id cap ∉ map CapabilityManager.id before ->
  CapabilityManager.find_capability this (JStr (CapabilityManager.id cap)) = Some cap.
Proof.
  unfold CapabilityManager.find_capability. intros -> Hfresh.
  induction before as [|c before IH]; cbn.
  - by rewrite String.eqb_refl.
  - cbn in Hfresh. apply not_elem_of_cons in Hfresh as [Hne Hfresh].
    destruct (String.eqb_spec (CapabilityManager.id c) (CapabilityManager.id cap));
      [congruence|]. by apply IH.
Qed.


Lemma find_capability_Some (this : CapabilityManager.t) (capabilityId : value)
    (cap : CapabilityManager.Capability) :
  CapabilityManager.find_capability this capabilityId = Some cap ->
  capabilityId = JStr (CapabilityManager.id cap)
  /\ cap ∈ CapabilityManager.capabilities this.
Proof.
  unfold CapabilityManager.find_capability.
  intros [Hin Heq]%find_some. split; [|by apply list_elem_of_In].
  destruct capabilityId; try done. cbn in Heq. by apply String.eqb_eq in Heq as ->.
Qed.



(** X14. Two registrations under one name at different clock readings get
    different ids, whatever the registries, schemas and constraints. *)
Theorem registerCapability_distinct_clock (this1 this2 : CapabilityManager.t)
    (now1 now2 : Z) (name : string) (input1 output1 input2 output2 : Schema)
    (constraints1 constraints2 : value) :
  now1 <> now2 ->
  CapabilityManager.id
    (snd (CapabilityManager.registerCapability this1 now1 name input1 output1 constraints1))
  <> CapabilityManager.id
       (snd (CapabilityManager.registerCapability this2 now2 name input2 output2 constraints2)).
Proof.
  intros Hne. cbn. intros Heq. apply Hne.
  do 3 apply String.app_inj in Heq. by apply (inj pretty) in Heq.
Qed.

(** The X14 theorem at the name [Add] and the clock readings 1000 and 1001. *)
Lemma registerCapability_distinct_clock_witness :
  CapabilityManager.id
    (snd (CapabilityManager.registerCapability (CapabilityManager.new JNull) 1000 "Add"
            AnySchema AnySchema JNull))
  <> CapabilityManager.id
       (snd (CapabilityManager.registerCapability (CapabilityManager.new JNull) 1001 "Add"
               AnySchema AnySchema JNull)).
Proof.
  apply registerCapability_distinct_clock. discriminate.
Defined.

(** ** Executors built through the API *)

Lemma built_in_sync (this : Executor.t) :
  built this ->
  (forall key,
     is_Some (Executor.handlers this !! key)
     <-> key ∈ map CapabilityManager.id
               (CapabilityManager.capabilities (Executor.capabilityManager this)))
  /\ CapabilityManager.identity (Executor.capabilityManager this)
     = IdentityManager.getIdentity (Executor.identity this).
Proof.
  induction 1 as [identity|this now name inputSchema outputSchema h _ [IHkeys IHid]].
  - split; [|done]. intros key. cbn. rewrite lookup_empty. split.
    + by intros [? ?].
    + by intros ?%elem_of_nil.
  - split; [|done]. intros key. cbn.
    rewrite map_app, elem_of_app, <- IHkeys. cbn. rewrite list_elem_of_singleton.
    rewrite lookup_insert_is_Some. split.
    + intros [<- | [_ Hsome]]; auto.
    + intros [Hsome | ->]; [|by left].
      destruct (decide ("cap_" +:+ replace_white_space_runs "_" false (toLowerCase name)
                        +:+ "_" +:+ Number_toString (Int now) = key)); auto.
Qed.

Lemma elem_of_ids_find (this : CapabilityManager.t) (key : string) :
  key ∈ map CapabilityManager.id (CapabilityManager.capabilities this)
  <-> exists cap, CapabilityManager.find_capability this (JStr key) = Some cap.
Proof.
  split.
  - intros Hin. destruct (CapabilityManager.find_capability this (JStr key)) eqn:Hfind; [eauto|].
    exfalso. unfold CapabilityManager.find_capability in Hfind.
    apply list_elem_of_fmap in Hin as (cap & -> & Hin).
    apply list_elem_of_In in Hin.
    pose proof (find_none _ _ Hfind cap Hin) as Hno. cbn in Hno.
    by rewrite String.eqb_refl in Hno.
  - intros [cap [[= ->] Hin]%find_capability_Some].
    apply list_elem_of_fmap. eauto.
Qed.

(** X15. In an executor built by [new Executor] and [addCapability], the
    handler map and the registry name the same ids. So a capability id with
    a handler always has a registered capability, and for such executors
    [executeTask] never reports [Capability not found]: what validation
    throws comes from the input schema of the first capability registered
    under the id. *)
Theorem built_handlers_match_registry (this : Executor.t) (capabilityId input : value)
    (key : string) (h : handler) :
  built this ->
  Executor.handlers_get this capabilityId = Some (key, h) ->
  exists cap,
    CapabilityManager.find_capability (Executor.capabilityManager this) capabilityId = Some cap
    /\ CapabilityManager.id cap = key
    /\ CapabilityManager.validateCapability (Executor.capabilityManager this) capabilityId input
       = parse (CapabilityManager._inputSchemaZod cap) input.
Proof.
  intros [Hsync _]%built_in_sync [-> Hh]%handlers_get_Some.
  assert (Hin : key ∈ map CapabilityManager.id
                  (CapabilityManager.capabilities (Executor.capabilityManager this)))
    by (apply Hsync; eauto).
  apply elem_of_ids_find in Hin as [cap Hfind]. exists cap.
  destruct (find_capability_Some _ _ _ Hfind) as [[= ->] _].
  split; [done|]. split; [done|].
  unfold CapabilityManager.validateCapability. by rewrite Hfind.
Qed.

(** The X15 theorem at the executor with two registrations under one id. *)
Lemma built_handlers_match_registry_witness :
  exists cap,
    CapabilityManager.find_capability (Executor.capabilityManager twice_registered)
      (JStr "cap_add_1000") = Some cap
    /\ CapabilityManager.id cap = "cap_add_1000".
Proof.
  destruct (built_handlers_match_registry twice_registered (JStr "cap_add_1000") JNull
              "cap_add_1000" failing_handler) as (cap & Hfind & Hid & _).
  - unfold twice_registered. apply built_addCapability, built_addCapability, built_new.
  - unfold twice_registered. cbn. rewrite lookup_insert_eq. reflexivity.
  - exists cap. split; [exact Hfind | exact Hid].
Defined.

(** ** Discovery *)

Lemma listed_ids_catalogue (executorId timestamp : value)
    (caps : list CapabilityManager.Capability) :
  listed_ids (JObj [("executorId", executorId);
                    ("capabilities", JArr (map CapabilityManager.public_capability caps));
                    ("timestamp", timestamp)])
  = map (fun cap => JStr (CapabilityManager.id cap)) caps.
Proof.
  unfold listed_ids.
  change (get_field (JObj _) "capabilities")
    with (JArr (map CapabilityManager.public_capability caps)).
  cbv beta iota. rewrite List.map_map. by apply map_ext.
Qed.

(** X16. [getCapabilities] throws when the manager was built without an
    identity. Otherwise it returns a catalogue with the identity's id, one
    entry for each registered capability in registration order under its id
    and name, and the clock reading; registering a capability adds its id at
    the end of the list. *)
Theorem getCapabilities_catalogue (this : CapabilityManager.t) (now : Z) :
  (is_nullish (CapabilityManager.identity this) = true ->
   exists err, CapabilityManager.getCapabilities this now = Thrown err)
  /\ (is_nullish (CapabilityManager.identity this) = false ->
      exists catalogue,
        CapabilityManager.getCapabilities this now = Returned catalogue
        /\ get_field catalogue "executorId" = get_field (CapabilityManager.identity this) "id"
        /\ get_field catalogue "timestamp" = JNum (Int now)
        /\ listed_ids catalogue
           = map (fun cap => JStr (CapabilityManager.id cap))
               (CapabilityManager.capabilities this)
        /\ forall (registered : Z) (name : string) (inputSchema outputSchema : Schema)
                  (constraints : value),
             let '(after, cap) :=
               CapabilityManager.registerCapability this registered name
                 inputSchema outputSchema constraints in
             exists catalogue',
               CapabilityManager.getCapabilities after now = Returned catalogue'
               /\ listed_ids catalogue'
                  = listed_ids catalogue ++ [JStr (CapabilityManager.id cap)]).
Proof.
  unfold CapabilityManager.getCapabilities. split.
  - destruct (CapabilityManager.identity this); cbn; try done; eauto.
  - intros Hidentity.
    assert (Hid : property (CapabilityManager.identity this) "id"
                  = Returned (get_field (CapabilityManager.identity this) "id")).
    { unfold get_field. by destruct (CapabilityManager.identity this). }
    rewrite Hid. cbn [mbind outcome_bind mret outcome_ret].
    eexists. split; [reflexivity|].
    split; [done|]. split; [done|]. split; [apply listed_ids_catalogue|].
    intros registered name inputSchema outputSchema constraints.
    cbn [CapabilityManager.registerCapability CapabilityManager.identity
         CapabilityManager.capabilities].
    rewrite Hid. cbn [mbind outcome_bind mret outcome_ret].
    eexists. split; [reflexivity|].
    rewrite !listed_ids_catalogue, map_app. done.
Qed.

(** The X16 theorem at the registry of the example executor. *)
Lemma getCapabilities_catalogue_witness :
  exists catalogue,
    CapabilityManager.getCapabilities (Executor.capabilityManager example_executor) 3000
    = Returned catalogue
    /\ get_field catalogue "executorId" = JStr "did:mtp:AlphaNode:1"
    /\ listed_ids catalogue = [JStr "cap_mathadd_1000"].
Proof.
  destruct (proj2 (getCapabilities_catalogue (Executor.capabilityManager example_executor)
                     3000) eq_refl)
    as (catalogue & Hcatalogue & Hid & _ & Hlisted & _).
  exists catalogue. split; [exact Hcatalogue|]. split; [exact Hid | exact Hlisted].
Defined.

(** X20. For an executor built by [new Executor] and [addCapability],
    [getPublicInfo] never throws; the document names the executor's id and
    public key, and every capability id it lists has a handler, so a task
    for a listed id is never answered with [not supported]. The private key
    has no part in the document. *)
Theorem getPublicInfo_built (this : Executor.t) (now : Z) :
  built this ->
  exists catalogue,
    Executor.getPublicInfo this now
    = Returned (JObj [("identity",
                       JObj [("id", JStr (IdentityManager.id (Executor.identity this)));
                             ("publicKey",
                              IdentityManager.publicKey (Executor.identity this))]);
                      ("capabilities", catalogue)])
    /\ get_field catalogue "executorId" = JStr (IdentityManager.id (Executor.identity this))
    /\ (forall key, JStr key ∈ listed_ids catalogue ->
                    is_Some (Executor.handlers_get this (JStr key)))
    /\ forall privateKey' : value,
         Executor.getPublicInfo
           {| Executor.identity :=
                {| IdentityManager.name := IdentityManager.name (Executor.identity this);
                   IdentityManager.id := IdentityManager.id (Executor.identity this);
                   IdentityManager.privateKey := privateKey';
                   IdentityManager.publicKey :=
                     IdentityManager.publicKey (Executor.identity this) |};
              Executor.capabilityManager := Executor.capabilityManager this;
              Executor.handlers := Executor.handlers this |} now
         = Executor.getPublicInfo this now.
Proof.
  intros [Hsync Hidentity]%built_in_sync.
  unfold Executor.getPublicInfo, CapabilityManager.getCapabilities.
  rewrite Hidentity. cbn [property IdentityManager.getIdentity get String.eqb Ascii.eqb
                          Bool.eqb mbind outcome_bind mret outcome_ret].
  eexists. split; [reflexivity|]. split; [done|]. split.
  2:{ intros privateKey'. cbn [Executor.capabilityManager Executor.identity].
      by rewrite Hidentity. }
  intros key. rewrite listed_ids_catalogue.
  intros (cap & Hcap & Hin)%list_elem_of_fmap. injection Hcap as ->.
  assert (Hsome : is_Some (Executor.handlers this !! CapabilityManager.id cap)).
  { apply Hsync. apply list_elem_of_fmap. eauto. }
  destruct Hsome as [h Hh]. exists (CapabilityManager.id cap, h). cbn. by rewrite Hh.
Qed.

(** The X20 theorem at the example executor. *)
Lemma getPublicInfo_built_witness :
  exists catalogue,
    Executor.getPublicInfo example_executor 3000
    = Returned (JObj [("identity",
                       JObj [("id", JStr "did:mtp:AlphaNode:1");
                             ("publicKey", JStr "AlphaNode")]);
                      ("capabilities", catalogue)])
    /\ get_field catalogue "executorId" = JStr "did:mtp:AlphaNode:1".
Proof.
  destruct (getPublicInfo_built example_executor 3000) as (catalogue & Hinfo & Hid & _).
  - unfold example_executor. apply built_addCapability, built_new.
  - exists catalogue. split; [exact Hinfo | exact Hid].
Defined.

(** ** Capability ids *)

Lemma toLowerCase_code_unit_not_capital (c : ascii) :
  is_capital (toLowerCase_code_unit c) = false.
Proof. by destruct c as [[] [] [] [] [] [] [] []]. Qed.

Lemma toLowerCase_not_capital (s : string) :
  Forall (fun c => is_capital c = false) (code_units (toLowerCase s)).
Proof.
  induction s as [|c s IH]; cbn [toLowerCase code_units]; constructor;
    [apply toLowerCase_code_unit_not_capital | done].
Qed.

Lemma replace_white_space_runs_clean (in_run : bool) (s : string) :
  Forall (fun c => is_capital c = false) (code_units s) ->
  Forall (fun c => is_white_space c = false /\ is_capital c = false)
    (code_units (replace_white_space_runs "_" in_run s)).
Proof.
  revert in_run. induction s as [|c s IH]; intros in_run Hs; [constructor|].
  cbn [code_units] in Hs. apply Forall_cons in Hs as [Hc Hs].
  cbn [replace_white_space_runs]. destruct (is_white_space c) eqn:Hspace.
  - destruct in_run; [by apply IH|].
    change ("_" +:+ replace_white_space_runs "_" true s)
      with (String "_" (replace_white_space_runs "_" true s)).
    cbn [code_units]. constructor; [done | by apply IH].
  - cbn [code_units]. constructor; [done | by apply IH].
Qed.

Lemma replace_white_space_runs_id (s : string) :
  Forall (fun c => is_white_space c = false) (code_units s) ->
  replace_white_space_runs "_" false s = s.
Proof.
  induction s as [|c s IH]; [done|]. cbn [code_units].
  intros [Hc Hs]%Forall_cons. cbn [replace_white_space_runs]. rewrite Hc. by rewrite IH.
Qed.

(** X18. The id of a registered capability is [cap_], the slug of the name,
    [_] and the clock reading in decimal, where the slug holds no white
    space and no capital letter: each run of white space in the
    name has become one underscore. A slug is its own slug, so a capability
    named by another one's slug gets the same id at the same clock
    reading. *)
Theorem registerCapability_id_slug (this : CapabilityManager.t) (now : Z) (name : string)
    (inputSchema outputSchema : Schema) (constraints : value) :
  CapabilityManager.id
    (snd (CapabilityManager.registerCapability this now name
            inputSchema outputSchema constraints))
  = "cap_" +:+ slug name +:+ "_" +:+ pretty now
  /\ Forall (fun c => is_white_space c = false /\ is_capital c = false)
       (code_units (slug name))
  /\ slug (slug name) = slug name.
Proof.
  split; [done|].
  assert (Hclean := replace_white_space_runs_clean false (toLowerCase name)
                      (toLowerCase_not_capital name)).
  split; [exact Hclean|]. fold (slug name) in Hclean.
  unfold slug at 1.
  assert (Hlower : toLowerCase (slug name) = slug name).
  { induction (slug name) as [|c s IH]; [done|]. cbn [code_units] in Hclean.
    apply Forall_cons in Hclean as [[_ Hc] Hs]. cbn [toLowerCase]. rewrite (IH Hs).
    f_equal. revert Hc. clear. by destruct c as [[] [] [] [] [] [] [] []]. }
  rewrite Hlower. apply replace_white_space_runs_id.
  eapply Forall_impl; [exact Hclean|]. by intros c [? _].
Qed.

(** ** The constructors *)

Lemma did_inj (name : string) (now1 now2 : Z) :
  IdentityManager.did name now1 = IdentityManager.did name now2 -> now1 = now2.
Proof.
  unfold IdentityManager.did. intros Heq.
  do 3 apply String.app_inj in Heq. cbn [Number_toString] in Heq.
  by apply (inj pretty) in Heq.
Qed.

(** X19. An identity built from existing keys keeps both keys. With an id
    that is not empty it is the same identity whenever it is built, and so
    is the executor around it. With no id, or the empty one, the id is made
    from the name and the clock, so two starts at different clock readings
    give the same keys two different ids. *)
Theorem IdentityManager_new_existing_keys (name : option string)
    (keys : IdentityManager.ExistingKeys) (now1 now2 : Z) (generated1 generated2 : value * value) :
  let first := IdentityManager.new name (Some keys) now1 generated1 in
  let second := IdentityManager.new name (Some keys) now2 generated2 in
  IdentityManager.privateKey first = IdentityManager.keys_privateKey keys
  /\ IdentityManager.publicKey first = IdentityManager.keys_publicKey keys
  /\ (forall given, IdentityManager.keys_id keys = Some given -> given <> "" ->
        IdentityManager.id first = given
        /\ first = second
        /\ new_Executor name (Some keys) now1 generated1
           = new_Executor name (Some keys) now2 generated2)
  /\ (IdentityManager.keys_id keys = None \/ IdentityManager.keys_id keys = Some "" ->
      now1 <> now2 ->
      IdentityManager.id first <> IdentityManager.id second).
Proof.
  cbv zeta. destruct keys as [given_id privateKey publicKey].
  split; [done|]. split; [done|]. split.
  - intros given Hgiven Hne. cbn in Hgiven. subst given_id.
    unfold new_Executor, IdentityManager.new. cbn.
    by destruct (String.eqb_spec given "").
  - cbn. intros Hid Hne Heq. apply Hne.
    destruct Hid as [-> | ->]; cbn in Heq; by apply did_inj in Heq.
Qed.

(** The X19 theorem at keys stored with the id [did:mtp:node:7] and at the
    same keys stored without an id. *)
Lemma IdentityManager_new_existing_keys_witness :
  IdentityManager.new (Some "node")
    (Some {| IdentityManager.keys_id := Some "did:mtp:node:7";
             IdentityManager.keys_privateKey := JStr "private";
             IdentityManager.keys_publicKey := JStr "public" |}) 1000 (JNull, JNull)
  = IdentityManager.new (Some "node")
      (Some {| IdentityManager.keys_id := Some "did:mtp:node:7";
               IdentityManager.keys_privateKey := JStr "private";
               IdentityManager.keys_publicKey := JStr "public" |}) 2000 (JNull, JNull)
  /\ IdentityManager.id
       (IdentityManager.new (Some "node")
          (Some {| IdentityManager.keys_id := None;
                   IdentityManager.keys_privateKey := JStr "private";
                   IdentityManager.keys_publicKey := JStr "public" |}) 1000 (JNull, JNull))
     <> IdentityManager.id
          (IdentityManager.new (Some "node")
             (Some {| IdentityManager.keys_id := None;
                      IdentityManager.keys_privateKey := JStr "private";
                      IdentityManager.keys_publicKey := JStr "public" |}) 2000 (JNull, JNull)).
Proof.
  split.
  - destruct (IdentityManager_new_existing_keys (Some "node")
                {| IdentityManager.keys_id := Some "did:mtp:node:7";
                   IdentityManager.keys_privateKey := JStr "private";
                   IdentityManager.keys_publicKey := JStr "public" |}
                1000 2000 (JNull, JNull) (JNull, JNull)) as (_ & _ & Hsame & _).
    destruct (Hsame "did:mtp:node:7" eq_refl) as (_ & Heq & _); [discriminate | exact Heq].
  - destruct (IdentityManager_new_existing_keys (Some "node")
                {| IdentityManager.keys_id := None;
                   IdentityManager.keys_privateKey := JStr "private";
                   IdentityManager.keys_publicKey := JStr "public" |}
                1000 2000 (JNull, JNull) (JNull, JNull)) as (_ & _ & _ & Hfresh).
    apply Hfresh; [by left | discriminate].
Defined.

(** ** The canonical form and JSON.stringify *)

Lemma JSON_stringify_object (props : list (string * value)) :
  JSON_stringify (JObj props) = Some ("{" +:+ String.concat "," (JSON_members props) +:+ "}").
Proof.
  cbn [JSON_stringify]. do 4 f_equal. unfold JSON_members.
  induction props as [|[k v] rest IH]; [done|]. cbn [flat_map fst snd].
  destruct (JSON_stringify v); cbn [app]; by rewrite IH.
Qed.

Lemma JSON_stringify_undefined (v : value) :
  JSON_stringify v = None <-> is_undefined v || is_function v = true.
Proof. destruct v as [| |[]| | | | |]; cbn; split; done. Qed.

Lemma sorted_clean_object (props : list (string * value)) :
  sorted_clean (JObj props) = true ->
  well_formed_object props
  /\ sort (Object_keys props) = Object_keys props
  /\ Forall (fun p => sorted_clean (snd p) = true) props.
Proof.
  cbn [sorted_clean]. rewrite !andb_true_iff, !bool_decide_eq_true.
  intros [[[Hwf Hsorted] _] Hvalues]. split; [done|]. split; [done|]. clear Hwf Hsorted.
  induction props as [|[k v] rest IH]; [constructor|].
  apply andb_true_iff in Hvalues as [Hv Hrest]. constructor; [done | by apply IH].
Qed.

(** On a value with sorted keys and clean arrays the canonical form is the
    text of [JSON.stringify]. *)
Lemma stableStringify_sorted_clean (v : value) :
  sorted_clean v = true -> IdentityManager.stableStringify v = JSON_stringify v.
Proof.
  induction v as [| |b|n|s|source|items IH|props IH] using value_ind'; try done.
  - cbn [sorted_clean]. intros Hclean.
    rewrite stableStringify_array. cbn [JSON_stringify]. unfold Array_join.
    do 4 f_equal. rewrite List.map_map.
    induction IH as [|item items Hitem _ IHitems]; [done|].
    cbn [forallb] in Hclean. apply andb_true_iff in Hclean as [Hhead Htail].
    apply andb_true_iff in Hhead as [Hitemclean Hdefined].
    cbn [map]. rewrite (IHitems Htail), (Hitem Hitemclean). f_equal.
    destruct (JSON_stringify item) eqn:Htext; [done|].
    apply JSON_stringify_undefined in Htext. by rewrite Htext in Hdefined.
  - intros (Hwf & Hsorted & Hvalues)%sorted_clean_object.
    rewrite stableStringify_object, JSON_stringify_object. do 4 f_equal.
    unfold parts. rewrite Hsorted. unfold Object_keys, JSON_members.
    rewrite flat_map_concat_map, List.map_map, <- flat_map_concat_map.
    apply flat_map_ext_elem_of. intros [k v] Hin.
    rewrite Forall_forall in IH, Hvalues.
    specialize (IH _ Hin (Hvalues _ Hin)). cbn [fst snd] in *.
    unfold callback. rewrite (get_well_formed props k v Hwf Hin).
    destruct (JSON_stringify v) as [text|] eqn:Htext.
    + assert (Hdefined : is_undefined v || is_function v = false).
      { destruct (is_undefined v || is_function v) eqn:E; [|done].
        apply JSON_stringify_undefined in E. congruence. }
      apply orb_false_iff in Hdefined as [-> ->]. by rewrite IH.
    + apply JSON_stringify_undefined in Htext.
      by destruct (is_undefined v), (is_function v).
Qed.

(** X21. For a value whose objects have their keys in sorted order, none of
    the keys written in digits only, and whose arrays hold no [undefined]
    and no function, the canonical form is exactly the text of
    [JSON.stringify]. So the canonical form of any value is the JSON text
    of its rearrangement with sorted keys, when there is such a
    rearrangement: no key in digits, clean arrays. *)
Theorem stableStringify_is_sorted_JSON (v rearranged : value) :
  same_value v rearranged ->
  sorted_clean rearranged = true ->
  IdentityManager.stableStringify v = JSON_stringify rearranged.
Proof.
  intros Hsame Hclean. rewrite (stableStringify_same_value v rearranged Hsame).
  by apply stableStringify_sorted_clean.
Qed.

(** The X21 theorem at [{b: [1, null], a: {d: true, c: 2}}]. *)
Lemma stableStringify_is_sorted_JSON_witness :
  IdentityManager.stableStringify
    (JObj [("b", JArr [JNum (Int 1); JNull]);
           ("a", JObj [("d", JBool true); ("c", JNum (Int 2))])])
  = JSON_stringify
      (JObj [("a", JObj [("c", JNum (Int 2)); ("d", JBool true)]);
             ("b", JArr [JNum (Int 1); JNull])]).
Proof.
  apply stableStringify_is_sorted_JSON.
  - apply (same_object _ [("a", JObj [("d", JBool true); ("c", JNum (Int 2))]);
                          ("b", JArr [JNum (Int 1); JNull])]).
    + by apply well_formed_two.
    + apply perm_swap.
    + repeat constructor.
      apply (same_object _ [("c", JNum (Int 2)); ("d", JBool true)]).
      * by apply well_formed_two.
      * apply perm_swap.
      * repeat constructor.
  - vm_compute. reflexivity.
Defined.

(** X23. On JSON data the canonical form tells values apart: two JSON
    values have the same canonical form exactly when they are the same
    value up to the order of the properties of their objects, at any
    depth. *)
Theorem stableStringify_injective_on_JSON (v1 v2 : value) :
  is_json v1 = true -> is_json v2 = true ->
  (IdentityManager.stableStringify v1 = IdentityManager.stableStringify v2
   <-> same_value v1 v2).
Proof.
  intros Hv1 Hv2. split.
  - by apply stableStringify_inj.
  - apply stableStringify_same_value.
Qed.

(** The X23 theorem at two objects with one canonical form,
    [{a: [1, 2], b: null}] and [{b: null, a: [1, 2]}]. *)
Lemma stableStringify_injective_on_JSON_witness :
  same_value (JObj [("a", JArr [JNum (Int 1); JNum (Int 2)]); ("b", JNull)])
             (JObj [("b", JNull); ("a", JArr [JNum (Int 1); JNum (Int 2)])]).
Proof.
  apply (stableStringify_injective_on_JSON
           (JObj [("a", JArr [JNum (Int 1); JNum (Int 2)]); ("b", JNull)])
           (JObj [("b", JNull); ("a", JArr [JNum (Int 1); JNum (Int 2)])])).
  - vm_compute. reflexivity.
  - vm_compute. reflexivity.
  - vm_compute. reflexivity.
Defined.

(** ** Executor.addCapability *)

Lemma validateCapability_appended (this : CapabilityManager.t)
    (cap : CapabilityManager.Capability) (input : value) :
  CapabilityManager.id cap ∉ map CapabilityManager.id (CapabilityManager.capabilities this) ->
  CapabilityManager.validateCapability
    {| CapabilityManager.identity := CapabilityManager.identity this;
       CapabilityManager.capabilities := CapabilityManager.capabilities this ++ [cap] |}
    (JStr (CapabilityManager.id cap)) input
  = parse (CapabilityManager._inputSchemaZod cap) input.
Proof.
  intros Hfresh. unfold CapabilityManager.validateCapability.
  by rewrite (find_capability_first _ (CapabilityManager.capabilities this) [] cap).
Qed.

(** X22. [addCapability] returns the capability it appended to the registry
    and puts the handler under its id; the handlers under other ids, the
    capabilities registered before and the identity stay as they were. When
    no capability had that id before, validation under the id is done by
    the new input schema. *)
Theorem addCapability_registers (this : Executor.t) (now : Z) (name : string)
    (inputSchema outputSchema : Schema) (h : handler) :
  let '(after, cap) := Executor.addCapability this now name inputSchema outputSchema h in
  Executor.handlers_get after (JStr (CapabilityManager.id cap))
  = Some (CapabilityManager.id cap, h)
  /\ (forall key, key <> CapabilityManager.id cap ->
                  Executor.handlers_get after (JStr key)
                  = Executor.handlers_get this (JStr key))
  /\ CapabilityManager.capabilities (Executor.capabilityManager after)
     = CapabilityManager.capabilities (Executor.capabilityManager this) ++ [cap]
  /\ Executor.identity after = Executor.identity this
  /\ CapabilityManager._inputSchemaZod cap = inputSchema
  /\ CapabilityManager.name cap = name
  /\ (CapabilityManager.id cap
      ∉ map CapabilityManager.id
          (CapabilityManager.capabilities (Executor.capabilityManager this)) ->
      forall input,
        CapabilityManager.validateCapability (Executor.capabilityManager after)
          (JStr (CapabilityManager.id cap)) input
        = parse inputSchema input).
Proof.
  cbn. split; [by rewrite lookup_insert_eq|].
  split; [intros key Hne; by rewrite lookup_insert_ne|].
  split; [done|]. split; [done|]. split; [done|]. split; [done|].
  intros Hfresh input.
  exact (validateCapability_appended (Executor.capabilityManager this)
           (snd (CapabilityManager.registerCapability (Executor.capabilityManager this)
                   now name inputSchema outputSchema (JObj []))) input Hfresh).
Qed.

(** The X22 theorem at the first registration on a new executor. *)
Lemma addCapability_registers_witness :
  CapabilityManager.validateCapability (Executor.capabilityManager example_executor)
    (JStr "cap_mathadd_1000") (JObj [("a", JNum (Int 1)); ("b", JNum (Int 2)); ("c", JNull)])
  = Returned (JObj [("a", JNum (Int 1)); ("b", JNum (Int 2))]).
Proof.
  pose proof (addCapability_registers (Executor.new (example_identity "AlphaNode"))
                1000 "MathAdd" AddSchema MathResultSchema add_handler) as Hadd.
  cbn in Hadd. destruct Hadd as (_ & _ & _ & _ & _ & _ & Hvalidate).
  apply (Hvalidate (not_elem_of_nil _)).
Defined.
